(** * PoET consensus state: a shallow embedding of [consensus_state.py]

    The module [sawtooth_poet.poet_consensus.consensus_state] keeps, for one
    position of the chain, the sum of the local means, the number of claimed
    blocks and one [ValidatorState] named tuple per validator, and it stores
    that state as CBOR.  The embedding follows the Python text: values that
    come out of [cbor.loads] are dynamically typed ([pyval]), the methods of
    [ConsensusState] are programs of a small state-and-exception monad over
    the attributes of [self], and the pieces of the Python runtime that are
    not part of the module (the [cbor] package, the text parsers behind
    [float()] and [int()], [repr]) are the fields of a class [Runtime]. *)

From Stdlib Require Import ZArith String Ascii List SpecFloat.
From Stdlib Require Import Strings.Byte.
From stdpp Require Import gmap strings list fin_maps pretty.

Open Scope string_scope.
Open Scope Z_scope.

(** ** Python floats: IEEE 754 binary64 *)

Module PyFloat.

Definition prec : Z := 53.
Definition emax : Z := 1024.

Definition float := spec_float.

Definition zero : float := S754_zero false.
Definition one : float := S754_finite false 4503599627370496 (-52).
Definition inf : float := S754_infinity false.
Definition nan : float := S754_nan.

Definition add : float → float → float := SFadd prec emax.
Definition ltb : float → float → bool := SFltb.

(** [math.isfinite] *)
Definition isfinite (x : float) : bool :=
  match x with
  | S754_zero _ | S754_finite _ _ _ => true
  | S754_infinity _ | S754_nan => false
  end.

(** [int.__float__]: round to nearest even; [None] is Python's
    [OverflowError: int too large to convert to float]. *)
Definition of_int (z : Z) : option float :=
  match binary_normalize prec emax z 0 false with
  | S754_infinity _ | S754_nan => None
  | x => Some x
  end.

(** The integer part of a finite float, rounded toward zero. *)
Definition trunc (x : float) : option Z :=
  match x with
  | S754_zero _ => Some 0
  | S754_finite s m e =>
      let a := if 0 <=? e then Z.shiftl (Z.pos m) e
               else Z.shiftr (Z.pos m) (- e) in
      Some (if s then - a else a)
  | S754_infinity _ | S754_nan => None
  end.


End PyFloat.

Abbreviation float := PyFloat.float.

(** ** Dynamically typed values

    The values [cbor.loads] can build, and the tuples [cbor.dumps] is given.
    A [VDict] lists its items in insertion order; a Python dict never holds
    two equal keys. *)

#[warnings="-register-all"]
Inductive pyval : Type :=
| VNone
| VBool (b : bool)
| VInt (z : Z)
| VFloat (x : float)
| VStr (s : string)
| VBytes (b : list byte)
| VList (l : list pyval)
| VTuple (l : list pyval)
| VDict (d : list (pyval * pyval))
| VTag (tag : Z) (v : pyval).

(** ** Exceptions *)

Inductive exc : Type :=
| ValueError
| TypeError
| KeyError
| IndexError
| OverflowError
| OtherError.

Inductive result (A : Type) : Type :=
| Returns (a : A)
| Raises (e : exc).
Arguments Returns {A} a.
Arguments Raises {A} e.

(** [except (LookupError, ValueError, KeyError, TypeError)]: [KeyError] and
    [IndexError] are the subclasses of [LookupError]; [OverflowError] is an
    [ArithmeticError] and is not in the tuple. *)
Definition except_matches (e : exc) : bool :=
  match e with
  | ValueError | TypeError | KeyError | IndexError => true
  | OverflowError | OtherError => false
  end.

(** ** The runtime outside the module *)

Class Runtime : Type := {
  (** [cbor.dumps] *)
  cbor_dumps : pyval → list byte;
  (** [cbor.loads]; it raises on a buffer that is not CBOR *)
  cbor_loads : list byte → result pyval;
  (** the text parsers of [float(s)] and [int(s)]; [None] is [ValueError] *)
  float_of_text : string → option float;
  float_of_bytes : list byte → option float;
  int_of_text : string → option Z;
  int_of_bytes : list byte → option Z;
  (** [str(v)] of a value that is not a [str] *)
  repr : pyval → string
}.

(** What [cbor.loads] gives back for what [cbor.dumps] was given: CBOR has
    one array type, so tuples and named tuples come back as lists. *)
Fixpoint cbor_image (v : pyval) : pyval :=
  match v with
  | VList l | VTuple l => VList (map cbor_image l)
  | VDict d => VDict (map (λ kv, (cbor_image kv.1, cbor_image kv.2)) d)
  | VTag t w => VTag t (cbor_image w)
  | _ => v
  end.

(** ** Builtins *)

Definition isinstance_int (v : pyval) : bool :=
  match v with VInt _ | VBool _ => true | _ => false end.

(** [type(v) is int]: the exact type, which leaves the subclass [bool]
    out. *)
Definition type_is_int (v : pyval) : bool :=
  match v with VInt _ => true | _ => false end.

Definition isinstance_str (v : pyval) : bool :=
  match v with VStr _ => true | _ => false end.

Definition isinstance_dict (v : pyval) : bool :=
  match v with VDict _ => true | _ => false end.

(** The number an [int] instance stands for ([True] is 1, [False] is 0). *)
Definition int_value (v : pyval) : Z :=
  match v with
  | VInt z => z
  | VBool b => Z.b2z b
  | _ => 0
  end.

(** [len] of a [str] *)
Definition str_len (v : pyval) : Z :=
  match v with VStr s => Z.of_nat (String.length s) | _ => 0 end.

Section Builtins.
Context `{Runtime}.

(** [float(v)] *)
Definition py_float (v : pyval) : result float :=
  match v with
  | VFloat x => Returns x
  | VInt z =>
      match PyFloat.of_int z with
      | Some x => Returns x
      | None => Raises OverflowError
      end
  | VBool b => Returns (if b then PyFloat.one else PyFloat.zero)
  | VStr s =>
      match float_of_text s with
      | Some x => Returns x
      | None => Raises ValueError
      end
  | VBytes b =>
      match float_of_bytes b with
      | Some x => Returns x
      | None => Raises ValueError
      end
  | VNone | VList _ | VTuple _ | VDict _ | VTag _ _ => Raises TypeError
  end.

(** [int(v)] *)
Definition py_int (v : pyval) : result Z :=
  match v with
  | VInt z => Returns z
  | VBool b => Returns (Z.b2z b)
  | VFloat x =>
      match x with
      | S754_nan => Raises ValueError
      | S754_infinity _ => Raises OverflowError
      | _ => match PyFloat.trunc x with
             | Some z => Returns z
             | None => Raises ValueError
             end
      end
  | VStr s =>
      match int_of_text s with
      | Some z => Returns z
      | None => Raises ValueError
      end
  | VBytes b =>
      match int_of_bytes b with
      | Some z => Returns z
      | None => Raises ValueError
      end
  | VNone | VList _ | VTuple _ | VDict _ | VTag _ _ => Raises TypeError
  end.

(** [str(v)] *)
Definition py_str (v : pyval) : string :=
  match v with
  | VStr s => s
  | _ => repr v
  end.

End Builtins.

(** [d[k]] for a [str] key [k]: only a [str] equals a [str]. *)
Fixpoint dict_getitem (d : list (pyval * pyval)) (k : string) : result pyval :=
  match d with
  | [] => Raises KeyError
  | (VStr k', v) :: d' => if String.eqb k' k then Returns v else dict_getitem d' k
  | _ :: d' => dict_getitem d' k
  end.

Definition getitem (v : pyval) (k : string) : result pyval :=
  match v with
  | VDict d => dict_getitem d k
  | _ => Raises TypeError
  end.

(** [v + 1] *)
Definition py_add1 (v : pyval) : result pyval :=
  match v with
  | VInt z => Returns (VInt (z + 1))
  | VBool b => Returns (VInt (Z.b2z b + 1))
  | VFloat x => Returns (VFloat (PyFloat.add x PyFloat.one))
  | _ => Raises TypeError
  end.

(** [s == v] for a [str] [s] *)
Definition str_eq (s : string) (v : pyval) : bool :=
  match v with
  | VStr s' => String.eqb s s'
  | _ => false
  end.

(** The items an iteration over [v] yields; [TypeError] when [v] is not
    iterable. *)
Definition py_iter (v : pyval) : result (list pyval) :=
  match v with
  | VList l | VTuple l => Returns l
  | VDict d => Returns (d.*1)
  | VStr s => Returns ((λ c, VStr (String c EmptyString)) <$> list_ascii_of_string s)
  | VBytes b => Returns ((λ c, VInt (Z.of_N (Byte.to_N c))) <$> b)
  | VNone | VBool _ | VInt _ | VFloat _ | VTag _ _ => Raises TypeError
  end.

(** ** The data model *)

(** [ValidatorState], the named tuple.  Its fields hold whatever values the
    tuple was made of: [_check_validator_state] is what tells an [int] from
    the rest. *)
Module ValidatorState.

Record t : Type := ValidatorState {
  key_block_claim_count : pyval;
  poet_public_key : pyval;
  total_block_claim_count : pyval
}.

(** [ValidatorState._make(iterable)]: [TypeError] unless the iterable has
    exactly the three items. *)
Definition _make (value : pyval) : result t :=
  match py_iter value with
  | Returns [k; p; n] => Returns (ValidatorState k p n)
  | Returns _ => Raises TypeError
  | Raises e => Raises e
  end.

(** The named tuple as [cbor.dumps] sees it. *)
Definition as_tuple (vs : t) : pyval :=
  VTuple [key_block_claim_count vs; poet_public_key vs;
          total_block_claim_count vs].

End ValidatorState.

(** The collaborators' objects: [validator_info] with its [signup_info], and
    the wait certificate. *)
Module SignupInfo.
Record t : Type := SignupInfo { poet_public_key : string }.
End SignupInfo.

Module ValidatorInfo.
Record t : Type := ValidatorInfo {
  name : string;
  id : string;
  signup_info : SignupInfo.t
}.
End ValidatorInfo.

Module WaitCertificate.
Record t : Type := WaitCertificate { local_mean : float }.
End WaitCertificate.

(** ** [class ConsensusState] *)

Module ConsensusState.

Record t : Type := ConsensusState {
  aggregate_local_mean : float;
  total_block_claim_count : Z;
  _validators : gmap string ValidatorState.t
}.

(** [__init__] *)
Definition __init__ : t :=
  {| aggregate_local_mean := PyFloat.zero;
     total_block_claim_count := 0;
     _validators := ∅ |}.

(** A method runs on [self], may assign its attributes, and returns or
    raises; the attributes keep what was assigned before a raise. *)
Definition method (A : Type) : Type := t → t * result A.

Definition ret {A} (a : A) : method A := λ self, (self, Returns a).

Definition raise {A} (e : exc) : method A := λ self, (self, Raises e).

Definition bind {A B} (f : A → method B) (m : method A) : method B :=
  λ self,
    match m self with
    | (self', Returns a) => f a self'
    | (self', Raises e) => (self', Raises e)
    end.

#[export] Instance method_ret : MRet method := @ret.
#[export] Instance method_bind : MBind method := @bind.

(** The outcome of an expression that does not touch [self]. *)
Definition lift {A} (r : result A) : method A := λ self, (self, r).

(** [self.attribute] *)
Definition attr {A} (f : t → A) : method A := λ self, (self, Returns (f self)).

(** [self.aggregate_local_mean = x] and the like *)
Definition set_aggregate_local_mean (x : float) : method unit :=
  λ self, (ConsensusState x (total_block_claim_count self) (_validators self),
           Returns tt).

Definition set_total_block_claim_count (n : Z) : method unit :=
  λ self, (ConsensusState (aggregate_local_mean self) n (_validators self),
           Returns tt).

Definition set__validators (m : gmap string ValidatorState.t) : method unit :=
  λ self, (ConsensusState (aggregate_local_mean self)
             (total_block_claim_count self) m,
           Returns tt).

(** [self._validators[k] = vs] *)
Definition setitem__validators (k : string) (vs : ValidatorState.t) : method unit :=
  λ self, (ConsensusState (aggregate_local_mean self)
             (total_block_claim_count self) (<[k := vs]> (_validators self)),
           Returns tt).

(** [try: body except ... as error: handler] *)
Definition try_except {A} (body : method A) (handler : exc → method A) : method A :=
  λ self,
    match body self with
    | (self', Raises error) => handler error self'
    | (self', Returns a) => (self', Returns a)
    end.

(** [for x in l: body] *)
Fixpoint for_each {X} (l : list X) (body : X → method unit) : method unit :=
  match l with
  | [] => ret tt
  | x :: l' => body x;; for_each l' body
  end.

(** [_check_validator_state] (a static method) *)
Definition _check_validator_state (validator_state : ValidatorState.t) : result unit :=
  let key_block_claim_count := ValidatorState.key_block_claim_count validator_state in
  let poet_public_key := ValidatorState.poet_public_key validator_state in
  let total_block_claim_count := ValidatorState.total_block_claim_count validator_state in
  if negb (isinstance_int key_block_claim_count)
     || (int_value key_block_claim_count <? 0)
  then Raises ValueError
  else if negb (isinstance_str poet_public_key)
          || (str_len poet_public_key <? 1)
  then Raises ValueError
  else if negb (isinstance_int total_block_claim_count)
          || (int_value total_block_claim_count <? 0)
  then Raises ValueError
  else if int_value key_block_claim_count >? int_value total_block_claim_count
  then Raises ValueError
  else Returns tt.

(** [get_validator_state] *)
Definition get_validator_state (validator_info : ValidatorInfo.t)
  : method ValidatorState.t :=
  validators ← attr _validators;
  match validators !! ValidatorInfo.id validator_info with
  | Some validator_state => mret validator_state
  | None =>
      let validator_state :=
        ValidatorState.ValidatorState
          (VInt 0)
          (VStr (SignupInfo.poet_public_key
                   (ValidatorInfo.signup_info validator_info)))
          (VInt 0) in
      setitem__validators (ValidatorInfo.id validator_info) validator_state;;
      mret validator_state
  end.

(** [validator_did_claim_block]; the [LOGGER.debug] call leaves no trace
    in [self]. *)
Definition validator_did_claim_block (validator_info : ValidatorInfo.t)
    (wait_certificate : WaitCertificate.t) : method unit :=
  alm ← attr aggregate_local_mean;
  set_aggregate_local_mean
    (PyFloat.add alm (WaitCertificate.local_mean wait_certificate));;
  tbcc ← attr total_block_claim_count;
  set_total_block_claim_count (tbcc + 1);;
  validator_state ← get_validator_state validator_info;
  total_block_claim_count ←
    lift (py_add1 (ValidatorState.total_block_claim_count validator_state));
  key_block_claim_count ←
    (if str_eq (SignupInfo.poet_public_key
                  (ValidatorInfo.signup_info validator_info))
               (ValidatorState.poet_public_key validator_state)
     then lift (py_add1 (ValidatorState.key_block_claim_count validator_state))
     else mret (VInt 1));
  setitem__validators (ValidatorInfo.id validator_info)
    (ValidatorState.ValidatorState
       key_block_claim_count
       (VStr (SignupInfo.poet_public_key
                (ValidatorInfo.signup_info validator_info)))
       total_block_claim_count).

(** [self.__dict__]: the attributes in the order [__init__] creates
    them. *)
Definition __dict__ (self : t) : pyval :=
  VDict [
    (VStr "aggregate_local_mean", VFloat (aggregate_local_mean self));
    (VStr "total_block_claim_count", VInt (total_block_claim_count self));
    (VStr "_validators",
     VDict ((λ kv, (VStr kv.1, ValidatorState.as_tuple kv.2))
              <$> map_to_list (_validators self)))
  ].

Section Methods.
Context `{Runtime}.

(** [serialize_to_bytes] *)
Definition serialize_to_bytes : method (list byte) :=
  self ← attr (λ self, self);
  mret (cbor_dumps (__dict__ self)).

(** The body of the [for] loop of [parse_from_bytes]. *)
Definition parse_item (item : pyval * pyval) : method unit :=
  let '(key, value) := item in
  validator_state ← lift (ValidatorState._make value);
  lift (_check_validator_state validator_state);;
  setitem__validators (py_str key) validator_state.

(** [validators.items()] *)
Definition items (v : pyval) : list (pyval * pyval) :=
  match v with
  | VDict d => d
  | _ => []
  end.

(** [parse_from_bytes] *)
Definition parse_from_bytes (buffer : list byte) : method unit :=
  try_except
    (self_dict ← lift (cbor_loads buffer);
     if negb (isinstance_dict self_dict) then raise ValueError else
     x ← lift (getitem self_dict "aggregate_local_mean");
     x ← lift (py_float x);
     set_aggregate_local_mean x;;
     n ← lift (getitem self_dict "total_block_claim_count");
     n ← lift (py_int n);
     set_total_block_claim_count n;;
     validators ← lift (getitem self_dict "_validators");
     alm ← attr aggregate_local_mean;
     if negb (PyFloat.isfinite alm) || PyFloat.ltb alm PyFloat.zero
     then raise ValueError else
     tbcc ← attr total_block_claim_count;
     if tbcc <? 0 then raise ValueError else
     if negb (isinstance_dict validators) then raise ValueError else
     set__validators ∅;;
     for_each (items validators) parse_item)
    (λ error,
       if except_matches error then raise ValueError else raise error).

End Methods.

End ConsensusState.

(** ** A runtime to run the methods on

    An instance of [Runtime] for the examples: a CBOR codec (RFC 8949,
    definite lengths) over [pyval], and parsers that read decimal integers
    and the names [inf] and [nan].  The theorems below hold for every
    [Runtime]; this one shows their hypotheses on concrete buffers. *)

Module Cbor.

Definition byte_of_Z (z : Z) : byte :=
  default x00 (Byte.of_N (Z.to_N (z mod 256))).

Definition Z_of_byte (b : byte) : Z := Z.of_N (Byte.to_N b).

(** [n] bytes, big-endian *)
Fixpoint be_bytes (n : nat) (z : Z) : list byte :=
  match n with
  | O => []
  | S n' => be_bytes n' (z / 256) ++ [byte_of_Z z]
  end.

Definition be_value (bs : list byte) : Z :=
  fold_left (λ acc b, acc * 256 + Z_of_byte b) bs 0.

Definition byte_length (z : Z) : nat := Z.to_nat (Z.log2 z / 8 + 1).

(** The initial byte of a data item and its argument. *)
Definition head (major n : Z) : list byte :=
  if n <? 24 then [byte_of_Z (major * 32 + n)]
  else if n <? 2 ^ 8 then byte_of_Z (major * 32 + 24) :: be_bytes 1 n
  else if n <? 2 ^ 16 then byte_of_Z (major * 32 + 25) :: be_bytes 2 n
  else if n <? 2 ^ 32 then byte_of_Z (major * 32 + 26) :: be_bytes 4 n
  else byte_of_Z (major * 32 + 27) :: be_bytes 8 n.

(** The binary64 bit pattern of a float. *)
Definition bits_of_float (x : float) : Z :=
  match x with
  | S754_zero s => Z.b2z s * 2 ^ 63
  | S754_infinity s => Z.b2z s * 2 ^ 63 + 2047 * 2 ^ 52
  | S754_nan => 2047 * 2 ^ 52 + 2 ^ 51
  | S754_finite s m e =>
      if Z.pos (digits2_pos m) =? 53
      then Z.b2z s * 2 ^ 63 + (e + 1075) * 2 ^ 52 + (Z.pos m - 2 ^ 52)
      else Z.b2z s * 2 ^ 63 + Z.pos m
  end.

(** The float of a bit pattern with [ew] exponent bits and [mw] mantissa
    bits, as a binary64. *)
Definition float_of_bits (ew mw : Z) (bits : Z) : float :=
  let s := Z.testbit bits (ew + mw) in
  let e := Z.shiftr bits mw mod 2 ^ ew in
  let m := bits mod 2 ^ mw in
  let bias := 2 ^ (ew - 1) - 1 in
  if e =? 2 ^ ew - 1 then (if m =? 0 then S754_infinity s else S754_nan)
  else if e =? 0
  then SpecFloat.binary_normalize PyFloat.prec PyFloat.emax
         (if s then - m else m) (1 - bias - mw) s
  else SpecFloat.binary_normalize PyFloat.prec PyFloat.emax
         (if s then - (m + 2 ^ mw) else m + 2 ^ mw) (e - bias - mw) s.

(** [cbor.dumps] *)
Fixpoint dumps (v : pyval) : list byte :=
  match v with
  | VNone => [xf6]
  | VBool b => [if b then xf5 else xf4]
  | VInt z =>
      let n := if 0 <=? z then z else - 1 - z in
      let major := if 0 <=? z then 0 else 1 in
      if n <? 2 ^ 64 then head major n
      else head 6 (2 + major) ++ head 2 (Z.of_nat (byte_length n))
             ++ be_bytes (byte_length n) n
  | VFloat x => xfb :: be_bytes 8 (bits_of_float x)
  | VStr s => head 3 (Z.of_nat (String.length s)) ++ list_byte_of_string s
  | VBytes b => head 2 (Z.of_nat (length b)) ++ b
  | VList l | VTuple l => head 4 (Z.of_nat (length l)) ++ concat (map dumps l)
  | VDict d =>
      head 5 (Z.of_nat (length d))
        ++ concat (map (λ kv, (dumps kv.1 ++ dumps kv.2)%list) d)
  | VTag t w => head 6 t ++ dumps w
  end.

(** The argument of a head with additional information [info]. *)
Definition read_argument (info : Z) (bs : list byte) : option (Z * list byte) :=
  if info <? 24 then Some (info, bs)
  else if 27 <? info then None
  else
    let n := Z.to_nat (2 ^ (info - 24)) in
    if (length bs <? n)%nat then None
    else Some (be_value (take n bs), drop n bs).

Fixpoint pair_up (l : list pyval) : list (pyval * pyval) :=
  match l with
  | k :: v :: l' => (k, v) :: pair_up l'
  | _ => []
  end.

Fixpoint loads_item (fuel : nat) (bs : list byte) : option (pyval * list byte) :=
  match fuel, bs with
  | S fuel', b :: bs =>
      let major := Z_of_byte b / 32 in
      let info := Z_of_byte b mod 32 in
      let fix loads_items (n : nat) (bs : list byte)
        : option (list pyval * list byte) :=
        match n with
        | O => Some ([], bs)
        | S n' =>
            '(v, bs) ← loads_item fuel' bs;
            '(vs, bs) ← loads_items n' bs;
            Some (v :: vs, bs)
        end in
      '(n, bs) ← read_argument info bs;
      if major =? 0 then Some (VInt n, bs)
      else if major =? 1 then Some (VInt (- 1 - n), bs)
      else if major =? 2 then
        if (length bs <? Z.to_nat n)%nat then None
        else Some (VBytes (take (Z.to_nat n) bs), drop (Z.to_nat n) bs)
      else if major =? 3 then
        if (length bs <? Z.to_nat n)%nat then None
        else Some (VStr (string_of_list_byte (take (Z.to_nat n) bs)),
                   drop (Z.to_nat n) bs)
      else if major =? 4 then
        '(vs, bs) ← loads_items (Z.to_nat n) bs;
        Some (VList vs, bs)
      else if major =? 5 then
        '(vs, bs) ← loads_items (Z.to_nat (2 * n)) bs;
        Some (VDict (pair_up vs), bs)
      else if major =? 6 then
        '(v, bs) ← loads_item fuel' bs;
        match n, v with
        | 2, VBytes b => Some (VInt (be_value b), bs)
        | 3, VBytes b => Some (VInt (- 1 - be_value b), bs)
        | _, _ => Some (VTag n v, bs)
        end
      else
        match info with
        | 20 => Some (VBool false, bs)
        | 21 => Some (VBool true, bs)
        | 22 | 23 => Some (VNone, bs)
        | 25 => Some (VFloat (float_of_bits 5 10 n), bs)
        | 26 => Some (VFloat (float_of_bits 8 23 n), bs)
        | 27 => Some (VFloat (float_of_bits 11 52 n), bs)
        | _ => None
        end
  | _, _ => None
  end.

(** [cbor.loads] *)
Definition loads (buffer : list byte) : result pyval :=
  match loads_item (S (length buffer)) buffer with
  | Some (v, _) => Returns v
  | None => Raises ValueError
  end.

(** A decimal integer with an optional sign. *)
Fixpoint digits (s : string) (acc : Z) : option Z :=
  match s with
  | EmptyString => Some acc
  | String c s' =>
      let d := Z.of_nat (nat_of_ascii c) - 48 in
      if (0 <=? d) && (d <=? 9) then digits s' (acc * 10 + d) else None
  end.

Definition decimal (s : string) : option Z :=
  match s with
  | EmptyString => None
  | String "-"%char (String c s') => Z.opp <$> digits (String c s') 0
  | _ => digits s 0
  end.

Definition decimal_float (s : string) : option float :=
  if String.eqb s "inf" then Some PyFloat.inf
  else if String.eqb s "-inf" then Some (S754_infinity true)
  else if String.eqb s "nan" then Some PyFloat.nan
  else z ← decimal s; PyFloat.of_int z.

Definition show (v : pyval) : string :=
  match v with
  | VNone => "None"
  | VBool b => if b then "True" else "False"
  | VInt z => pretty.pretty z
  | _ => "<object>"
  end.

Definition runtime : Runtime := {|
  cbor_dumps := dumps;
  cbor_loads := loads;
  float_of_text := decimal_float;
  float_of_bytes := λ b, decimal_float (string_of_list_byte b);
  int_of_text := decimal;
  int_of_bytes := λ b, decimal (string_of_list_byte b);
  repr := show
|}.

End Cbor.

(** ** Vocabulary of the properties *)

Import ConsensusState.

(** The record invariant: what [_check_validator_state] lets through. *)
Definition record_ok (vs : ValidatorState.t) : Prop :=
  _check_validator_state vs = Returns tt.

(** The invariant spelt out: the counts are [int] instances (Python counts
    [True] and [False] among them, as 1 and 0) that are not negative, the
    key is a [str] that is not empty, and the count under the current key
    does not exceed the total. *)
Definition record_invariant (vs : ValidatorState.t) : Prop :=
  isinstance_int (ValidatorState.key_block_claim_count vs) = true
  ∧ 0 ≤ int_value (ValidatorState.key_block_claim_count vs)
  ∧ (∃ s, ValidatorState.poet_public_key vs = VStr s ∧ s ≠ "")
  ∧ isinstance_int (ValidatorState.total_block_claim_count vs) = true
  ∧ 0 ≤ int_value (ValidatorState.total_block_claim_count vs)
  ∧ int_value (ValidatorState.key_block_claim_count vs)
    ≤ int_value (ValidatorState.total_block_claim_count vs).

(** A valid state: the aggregate is finite and not below zero, the total is
    not negative, every record passes the check. *)
Definition state_ok (self : ConsensusState.t) : Prop :=
  PyFloat.isfinite (aggregate_local_mean self) = true
  ∧ PyFloat.ltb (aggregate_local_mean self) PyFloat.zero = false
  ∧ 0 ≤ total_block_claim_count self
  ∧ ∀ k vs, _validators self !! k = Some vs → record_ok vs.

(** A validator info as the registry hands it out: its PoET public key is
    not empty. *)
Definition info_ok (validator_info : ValidatorInfo.t) : Prop :=
  SignupInfo.poet_public_key (ValidatorInfo.signup_info validator_info) ≠ "".

(** The record [get_validator_state] makes up for a validator it has not
    seen. *)
Definition default_state (validator_info : ValidatorInfo.t) : ValidatorState.t :=
  ValidatorState.ValidatorState
    (VInt 0)
    (VStr (SignupInfo.poet_public_key (ValidatorInfo.signup_info validator_info)))
    (VInt 0).

(** [self] with the record of [k] replaced. *)
Definition with_validator (k : string) (vs : ValidatorState.t)
    (self : ConsensusState.t) : ConsensusState.t :=
  ConsensusState (aggregate_local_mean self) (total_block_claim_count self)
    (<[k := vs]> (_validators self)).

(** Records stored one after the other, as the loop of [parse_from_bytes]
    does. *)
Definition insert_all (recs : list (string * ValidatorState.t))
    (m : gmap string ValidatorState.t) : gmap string ValidatorState.t :=
  foldl (λ m r, <[r.1 := r.2]> m) m recs.

(** Calls a client makes between two reads of a validator's state. *)
Inductive call : Type :=
| GetValidatorState (validator_info : ValidatorInfo.t)
| ValidatorDidClaimBlock (validator_info : ValidatorInfo.t)
    (wait_certificate : WaitCertificate.t).

(** Whether the call records a claim for the validator [k]. *)
Definition claims_for (k : string) (c : call) : Prop :=
  match c with
  | GetValidatorState _ => False
  | ValidatorDidClaimBlock validator_info _ => ValidatorInfo.id validator_info = k
  end.

(** [self] after the call, however the call ended. *)
Definition after_call (self : ConsensusState.t) (c : call) : ConsensusState.t :=
  match c with
  | GetValidatorState validator_info =>
      (get_validator_state validator_info self).1
  | ValidatorDidClaimBlock validator_info wait_certificate =>
      (validator_did_claim_block validator_info wait_certificate self).1
  end.

(** One claim after the other. *)
Definition claim_all (claims : list (ValidatorInfo.t * WaitCertificate.t))
  : method unit :=
  for_each claims (λ c, validator_did_claim_block c.1 c.2).

(** What [validator_did_claim_block] does once the two counters of [self]
    are updated: [bumped] is the record it stores when both additions go
    through. *)
Definition bumped (validator_info : ValidatorInfo.t)
    (validator_state : ValidatorState.t) : result ValidatorState.t :=
  match py_add1 (ValidatorState.total_block_claim_count validator_state) with
  | Raises e => Raises e
  | Returns total =>
      let key := SignupInfo.poet_public_key (ValidatorInfo.signup_info validator_info) in
      if str_eq key (ValidatorState.poet_public_key validator_state)
      then match py_add1 (ValidatorState.key_block_claim_count validator_state) with
           | Raises e => Raises e
           | Returns count => Returns (ValidatorState.ValidatorState count (VStr key) total)
           end
      else Returns (ValidatorState.ValidatorState (VInt 1) (VStr key) total)
  end.

(** The counts of every record are [int] instances. *)
Definition counts_are_ints (self : ConsensusState.t) : Prop :=
  ∀ k vs, _validators self !! k = Some vs →
    isinstance_int (ValidatorState.key_block_claim_count vs) = true
    ∧ isinstance_int (ValidatorState.total_block_claim_count vs) = true.

Section Vocabulary.
Context `{Runtime}.

(** One item of the decoded [_validators] dict, as the loop body takes
    it: the key through [str], the value through [_make] and the check. *)
Definition decode_item (item : pyval * pyval)
  : result (string * ValidatorState.t) :=
  match ValidatorState._make item.2 with
  | Returns vs =>
      match _check_validator_state vs with
      | Returns _ => Returns (py_str item.1, vs)
      | Raises e => Raises e
      end
  | Raises e => Raises e
  end.

(** The items of the decoded [_validators] dict that the loop stores
    before it stops, and the exception that stops it, if any. *)
Fixpoint decode_items (l : list (pyval * pyval))
  : list (string * ValidatorState.t) * option exc :=
  match l with
  | [] => ([], None)
  | item :: l' =>
      match decode_item item with
      | Returns r => let '(rs, stop) := decode_items l' in (r :: rs, stop)
      | Raises e => ([], Some e)
      end
  end.

(** What the [except] clause of [parse_from_bytes] turns an exception
    into. *)
Definition reraised (error : exc) : exc :=
  if except_matches error then ValueError else error.

(** The states a client gets to from a fresh [ConsensusState()] with
    well-formed validator infos and buffers that parse. *)
Inductive reachable : ConsensusState.t → Prop :=
| reachable_init : reachable __init__
| reachable_get self validator_info :
    reachable self → info_ok validator_info →
    reachable (get_validator_state validator_info self).1
| reachable_claim self validator_info wait_certificate :
    reachable self → info_ok validator_info →
    reachable (validator_did_claim_block validator_info wait_certificate self).1
| reachable_parse self buffer self' :
    reachable self →
    parse_from_bytes buffer self = (self', Returns tt) →
    reachable self'.

End Vocabulary.

(** ** Sample data *)

Module Examples.

Definition info (id key : string) : ValidatorInfo.t :=
  ValidatorInfo.ValidatorInfo "validator" id (SignupInfo.SignupInfo key).

Definition certificate (x : float) : WaitCertificate.t :=
  WaitCertificate.WaitCertificate x.

(** 3.7, 2.0 and -1.0 as binary64 *)
Definition f3_7 : float := S754_finite false 8331659310635418 (-51).
Definition f2 : float := S754_finite false 4503599627370496 (-51).
Definition minus_one : float := S754_finite true 4503599627370496 (-52).

Definition record (k : Z) (p : string) (n : Z) : ValidatorState.t :=
  ValidatorState.ValidatorState (VInt k) (VStr p) (VInt n).

(** A state with one validator, [{key=2, ppk="A", total=5}]. *)
Definition one_validator : ConsensusState.t :=
  ConsensusState.ConsensusState f3_7 5 (<["alice" := record 2 "A" 5]> ∅).

(** A state with two validators. *)
Definition two_validators : ConsensusState.t :=
  ConsensusState.ConsensusState f3_7 9
    (<["bob" := record 4 "B" 4]> (<["alice" := record 2 "A" 5]> ∅)).

(** What the buffer [key_above_total] below leaves of a state. *)
Definition after_key_above_total : ConsensusState.t :=
  ConsensusState.ConsensusState f2 7 (<["carol" := record 1 "C" 1]> ∅).

(** The three entries of a serialized state. *)
Definition entries (alm n : pyval) (validators : list (pyval * pyval))
  : list (pyval * pyval) :=
  [(VStr "aggregate_local_mean", alm);
   (VStr "total_block_claim_count", n);
   (VStr "_validators", VDict validators)].

(** A state with one record, and two more keys around the three. *)
Definition with_other_keys : list byte :=
  Cbor.dumps
    (VDict ((VStr "version", VInt 2)
              :: entries (VFloat f2) (VInt 7)
                   [(VStr "alice", VList [VInt 1; VStr "A"; VInt 3])]
              ++ [(VStr "comment", VList [VStr "x"; VNone])])%list).

(** A total of 3.7. *)
Definition float_total : list byte :=
  Cbor.dumps
    (VDict (entries (VFloat f2) (VFloat f3_7)
              [(VStr "alice", VList [VInt 1; VStr "A"; VInt 2])])).

(** A record whose counts are [True]. *)
Definition bool_counts : list byte :=
  Cbor.dumps
    (VDict (entries (VFloat f2) (VInt 7)
              [(VStr "alice", VList [VBool true; VStr "A"; VBool true])])).

(** The same total, and a record whose counts are the float 2.0. *)
Definition float_counts : list byte :=
  Cbor.dumps
    (VDict (entries (VFloat f2) (VFloat f3_7)
              [(VStr "alice", VList [VFloat f2; VStr "A"; VFloat f2])])).

(** A good record, then a record with [key_block_claim_count] 5 above
    [total_block_claim_count] 3. *)
Definition key_above_total : list byte :=
  Cbor.dumps
    (VDict (entries (VFloat f2) (VInt 7)
              [(VStr "carol", VList [VInt 1; VStr "C"; VInt 1]);
               (VStr "dave", VList [VInt 5; VStr "D"; VInt 3])])).

(** A negative aggregate and an infinite total. *)
Definition infinite_total : list byte :=
  Cbor.dumps
    (VDict (entries (VFloat minus_one) (VFloat PyFloat.inf) [])).

(** An aggregate of [10 ** 400] and a negative total. *)
Definition huge_aggregate : list byte :=
  Cbor.dumps (VDict (entries (VInt (10 ^ 400)) (VInt (-1)) [])).

(** A record that is the text ['abc'] in place of a list. *)
Definition text_record : list byte :=
  Cbor.dumps
    (VDict (entries (VFloat f2) (VInt 7)
              [(VStr "carol", VList [VInt 1; VStr "C"; VInt 1]);
               (VStr "dave", VStr "abc")])).

(** The keys [1] and ['1'], which [str] maps to the same string. *)
Definition colliding_keys : list byte :=
  Cbor.dumps
    (VDict (entries (VFloat f2) (VInt 7)
              [(VInt 1, VList [VInt 1; VStr "C"; VInt 1]);
               (VStr "1", VList [VInt 2; VStr "D"; VInt 3])])).

(** The integer 5 in place of a dict. *)
Definition not_a_dict : list byte := Cbor.dumps (VInt 5).

(** The largest finite float. *)
Definition max_float : float := S754_finite false 9007199254740991 971.

End Examples.

(** ** Vocabulary of the further properties *)

(** The validator a call is about. *)
Definition call_id (c : call) : string :=
  match c with
  | GetValidatorState validator_info => ValidatorInfo.id validator_info
  | ValidatorDidClaimBlock validator_info _ => ValidatorInfo.id validator_info
  end.

(** The signup keys under which the validator [k] claimed, in the order of
    the claims. *)
Definition keys_of (k : string)
    (claims : list (ValidatorInfo.t * WaitCertificate.t)) : list string :=
  (λ c, SignupInfo.poet_public_key (ValidatorInfo.signup_info c.1))
    <$> filter (λ c, ValidatorInfo.id c.1 = k) claims.

(** How many keys at the head of [l] equal [K]. *)
Fixpoint leading (K : string) (l : list string) : Z :=
  match l with
  | K' :: l' => if String.eqb K' K then 1 + leading K l' else 0
  | [] => 0
  end.

(** The record a validator has after claiming under [keys], one after the
    other: the length of the run of equal keys that ends the list, the last
    key, the number of keys; no record without a claim. *)
Definition tallied (keys : list string) : option ValidatorState.t :=
  match reverse keys with
  | [] => None
  | K :: earlier =>
      Some (ValidatorState.ValidatorState
              (VInt (1 + leading K earlier)) (VStr K)
              (VInt (Z.of_nat (length keys))))
  end.

(** The sum of the [total_block_claim_count] of the records. *)
Definition total_sum (m : gmap string ValidatorState.t) : Z :=
  map_fold (λ _ vs acc, int_value (ValidatorState.total_block_claim_count vs) + acc)
    0 m.

(** A call with the inputs the collaborators promise: a signup key that
    is not empty and, for a claim, a local mean that is [>= 0]. *)
Definition call_ok (c : call) : Prop :=
  match c with
  | GetValidatorState validator_info => info_ok validator_info
  | ValidatorDidClaimBlock validator_info wait_certificate =>
      info_ok validator_info
      ∧ SFleb PyFloat.zero (WaitCertificate.local_mean wait_certificate) = true
  end.

(** A value that cannot stand for a record: iterating it does not give
    exactly three items, or it is a [str] or a [bytes] (whose items are
    one-character strings and small integers). *)
Definition not_a_record (value : pyval) : Prop :=
  (∀ a b c, py_iter value ≠ Returns [a; b; c])
  ∨ (∃ s, value = VStr s) ∨ (∃ b, value = VBytes b).

(** [x >= 0] on floats: it fails for a NaN. *)
Definition float_ge0 (x : float) : bool := SFleb PyFloat.zero x.

(** * Properties *)

(** ** The integer part of a float *)

(** [PyFloat.trunc] rounds toward zero: the float [(-1)^s * m * 2^e] has
    the sign of the result, and the magnitude [a] of the result is the
    largest integer that is not above [m * 2^e]. *)
Lemma trunc_toward_zero s m e z :
  PyFloat.trunc (S754_finite s m e) = Some z →
  ∃ a, z = (if s then - a else a) ∧ 0 ≤ a
       ∧ (0 ≤ e → a = Z.pos m * 2 ^ e)
       ∧ (e < 0 → a * 2 ^ (- e) ≤ Z.pos m < (a + 1) * 2 ^ (- e)).
Proof.
  unfold PyFloat.trunc. intros [= <-].
  destruct (Z.leb_spec 0 e) as [He|He].
  - exists (Z.shiftl (Z.pos m) e). rewrite Z.shiftl_mul_pow2 by done.
    split; [done|]. split; [|split; [done|lia]].
    apply Z.mul_nonneg_nonneg; [lia|]. by apply Z.pow_nonneg.
  - exists (Z.shiftr (Z.pos m) (- e)). rewrite Z.shiftr_div_pow2 by lia.
    assert (Hp : 0 < 2 ^ (- e)) by (apply Z.pow_pos_nonneg; lia).
    split; [done|]. split; [apply Z.div_pos; lia|]. split; [lia|].
    intros _. split.
    + rewrite Z.mul_comm. apply Z.mul_div_le. lia.
    + rewrite Z.mul_comm. apply Z.mul_succ_div_gt. lia.
Qed.

(** [int(3.7)] is 3 and [int(-1.0)] is -1. *)
Example int_of_3_7 :
  PyFloat.trunc Examples.f3_7 = Some 3
  ∧ PyFloat.trunc Examples.minus_one = Some (-1).
Proof. by vm_compute. Qed.

(** ** Reading a validator's state *)

Lemma get_validator_state_unfold self validator_info :
  get_validator_state validator_info self =
    match _validators self !! ValidatorInfo.id validator_info with
    | Some validator_state => (self, Returns validator_state)
    | None =>
        (with_validator (ValidatorInfo.id validator_info)
           (default_state validator_info) self,
         Returns (default_state validator_info))
    end.
Proof.
  unfold get_validator_state, mbind, method_bind, bind, attr. simpl.
  destruct (_validators self !! ValidatorInfo.id validator_info); reflexivity.
Qed.

Lemma validator_did_claim_block_unfold self validator_info wait_certificate :
  let counted :=
    ConsensusState
      (PyFloat.add (aggregate_local_mean self)
         (WaitCertificate.local_mean wait_certificate))
      (total_block_claim_count self + 1)
      (_validators self) in
  let fetched := (get_validator_state validator_info counted).1 in
  let validator_state :=
    default (default_state validator_info)
      (_validators self !! ValidatorInfo.id validator_info) in
  validator_did_claim_block validator_info wait_certificate self =
    match bumped validator_info validator_state with
    | Returns new =>
        (with_validator (ValidatorInfo.id validator_info) new fetched, Returns tt)
    | Raises e => (fetched, Raises e)
    end.
Proof.
  intros counted fetched validator_state.
  unfold validator_did_claim_block, mbind, method_bind, bind, attr,
    set_aggregate_local_mean, set_total_block_claim_count, lift, mret,
    method_ret, ret, setitem__validators.
  simpl. fold counted.
  subst fetched. rewrite get_validator_state_unfold.
  subst validator_state. unfold bumped. simpl.
  destruct (_validators self !! ValidatorInfo.id validator_info) as [vs|];
    simpl.
  - destruct (py_add1 (ValidatorState.total_block_claim_count vs)); [|done].
    match goal with |- context [str_eq ?a ?b] => destruct (str_eq a b) end;
      [|done].
    by destruct (py_add1 (ValidatorState.key_block_claim_count vs)).
  - by rewrite String.eqb_refl.
Qed.

Lemma after_call_lookup self c k vs :
  _validators self !! k = Some vs → ¬ claims_for k c →
  _validators (after_call self c) !! k = Some vs.
Proof.
  intros Hk Hc. destruct c as [vi|vi wc]; simpl in *.
  - rewrite get_validator_state_unfold.
    destruct (_validators self !! ValidatorInfo.id vi) eqn:Hvi; simpl; [done|].
    rewrite lookup_insert_ne; [done|]. intros Heq. rewrite Heq in Hvi. congruence.
  - rewrite validator_did_claim_block_unfold. cbv zeta.
    rewrite get_validator_state_unfold. simpl.
    destruct (bumped _ _); simpl;
      destruct (_validators self !! ValidatorInfo.id vi) eqn:Hvi; simpl;
      rewrite ?lookup_insert_ne by done; done.
Qed.

Lemma after_calls_lookup calls self k vs :
  _validators self !! k = Some vs →
  Forall (λ c, ¬ claims_for k c) calls →
  _validators (foldl after_call self calls) !! k = Some vs.
Proof.
  revert self. induction calls as [|c calls IH]; intros self Hk Hcs; [done|].
  inversion Hcs; subst. simpl. apply IH; [|done].
  by apply after_call_lookup.
Qed.

(** C8.  When the validator already has a record, [get_validator_state]
    returns that record as it is stored and leaves [self] as it was; the
    signup key of the validator info plays no part (the statement holds for
    every key the info carries). *)
Theorem get_validator_state_stored self validator_info validator_state :
  _validators self !! ValidatorInfo.id validator_info = Some validator_state →
  get_validator_state validator_info self = (self, Returns validator_state).
Proof.
  intros Hk. rewrite get_validator_state_unfold. by rewrite Hk.
Qed.

(** C6.  For a validator without a record, [get_validator_state] returns
    the default record (counts 0, the signup key of the info) and stores
    it; after any further reads and any claims of other validators, a read
    for the same identity, whatever key it carries, still returns that
    record and changes nothing. *)
Theorem get_validator_state_creates_default self validator_info calls validator_info' :
  _validators self !! ValidatorInfo.id validator_info = None →
  ValidatorInfo.id validator_info' = ValidatorInfo.id validator_info →
  Forall (λ c, ¬ claims_for (ValidatorInfo.id validator_info) c) calls →
  let created := with_validator (ValidatorInfo.id validator_info)
                   (default_state validator_info) self in
  let later := foldl after_call created calls in
  default_state validator_info
    = ValidatorState.ValidatorState
        (VInt 0)
        (VStr (SignupInfo.poet_public_key (ValidatorInfo.signup_info validator_info)))
        (VInt 0)
  ∧ get_validator_state validator_info self
    = (created, Returns (default_state validator_info))
  ∧ _validators created !! ValidatorInfo.id validator_info
    = Some (default_state validator_info)
  ∧ get_validator_state validator_info' later
    = (later, Returns (default_state validator_info)).
Proof.
  intros Hk Hid Hcalls created later.
  assert (Hc : _validators created !! ValidatorInfo.id validator_info
               = Some (default_state validator_info))
    by (subst created; simpl; apply lookup_insert_eq).
  repeat split; [|done|].
  - rewrite get_validator_state_unfold. by rewrite Hk.
  - rewrite get_validator_state_unfold, Hid. subst later.
    by rewrite (after_calls_lookup calls created _ _ Hc Hcalls).
Qed.

(** ** Recording a claim *)

(** C4.  When the stored record of the validator is [{k, P, t}], a claim
    under the signup key [K] replaces it with [{k + 1, K, t + 1}] if
    [K = P] and with [{1, K, t + 1}] otherwise; the call returns, and the
    two counters of [self] are advanced. *)
Theorem validator_did_claim_block_replaces self validator_info wait_certificate k P t :
  _validators self !! ValidatorInfo.id validator_info
    = Some (ValidatorState.ValidatorState (VInt k) (VStr P) (VInt t)) →
  let K := SignupInfo.poet_public_key (ValidatorInfo.signup_info validator_info) in
  validator_did_claim_block validator_info wait_certificate self =
    (ConsensusState
       (PyFloat.add (aggregate_local_mean self)
          (WaitCertificate.local_mean wait_certificate))
       (total_block_claim_count self + 1)
       (<[ValidatorInfo.id validator_info :=
            ValidatorState.ValidatorState
              (VInt (if String.eqb K P then k + 1 else 1)) (VStr K) (VInt (t + 1))]>
          (_validators self)),
     Returns tt).
Proof.
  intros Hk K. rewrite validator_did_claim_block_unfold. cbv zeta.
  rewrite get_validator_state_unfold. simpl. rewrite Hk. simpl.
  unfold bumped. simpl. fold K. destruct (String.eqb K P); reflexivity.
Qed.

Lemma py_add1_int v :
  isinstance_int v = true → py_add1 v = Returns (VInt (int_value v + 1)).
Proof. by destruct v. Qed.

Lemma validator_did_claim_block_counts self validator_info wait_certificate :
  counts_are_ints self →
  ∃ self',
    validator_did_claim_block validator_info wait_certificate self
      = (self', Returns tt)
    ∧ aggregate_local_mean self'
      = PyFloat.add (aggregate_local_mean self)
          (WaitCertificate.local_mean wait_certificate)
    ∧ total_block_claim_count self' = total_block_claim_count self + 1
    ∧ counts_are_ints self'.
Proof.
  intros Hints. rewrite validator_did_claim_block_unfold. cbv zeta.
  rewrite get_validator_state_unfold. simpl.
  set (vs := default _ _).
  assert (Hvs : isinstance_int (ValidatorState.key_block_claim_count vs) = true
                ∧ isinstance_int (ValidatorState.total_block_claim_count vs) = true).
  { subst vs. destruct (_validators self !! _) eqn:Hk; simpl; [eauto|done]. }
  destruct Hvs as [Hkey Htot].
  assert (Hb : ∃ new, bumped validator_info vs = Returns new
             ∧ isinstance_int (ValidatorState.key_block_claim_count new) = true
             ∧ isinstance_int (ValidatorState.total_block_claim_count new) = true).
  { unfold bumped. rewrite (py_add1_int _ Htot), (py_add1_int _ Hkey).
    destruct (str_eq _ _); eauto. }
  destruct Hb as (new & -> & Hnk & Hnt).
  eexists. split; [reflexivity|].
  destruct (_validators self !! ValidatorInfo.id validator_info) eqn:Hk;
    simpl; (split; [done|]); (split; [done|]);
    intros k' vs'; simpl;
    (destruct (decide (ValidatorInfo.id validator_info = k')) as [->|Hne];
     [rewrite lookup_insert_eq; by intros [= <-]|]);
    rewrite !lookup_insert_ne by done; apply Hints.
Qed.

Lemma claim_all_counts claims self :
  counts_are_ints self →
  ∃ self',
    claim_all claims self = (self', Returns tt)
    ∧ aggregate_local_mean self'
      = fold_left PyFloat.add
          ((λ c, WaitCertificate.local_mean c.2) <$> claims)
          (aggregate_local_mean self)
    ∧ total_block_claim_count self'
      = total_block_claim_count self + Z.of_nat (length claims)
    ∧ counts_are_ints self'.
Proof.
  revert self. induction claims as [|[vi wc] claims IH]; intros self Hints.
  - exists self. simpl. split; [done|]. split; [done|]. split; [lia|done].
  - destruct (validator_did_claim_block_counts self vi wc Hints)
      as (self1 & Hrun & Halm & Htot & Hints1).
    destruct (IH self1 Hints1) as (self2 & Hrun2 & Halm2 & Htot2 & Hints2).
    exists self2. unfold claim_all in *. cbn [for_each].
    unfold mbind, method_bind, bind. cbn [fst snd]. rewrite Hrun, Hrun2.
    split; [done|]. split; [by rewrite Halm2, Halm|].
    split; [|done]. rewrite Htot2, Htot. cbn [length]. lia.
Qed.


(** ** Parsing a buffer *)

Section Parsing.
Context `{Runtime}.

Lemma parse_item_unfold item self :
  parse_item item self =
    match decode_item item with
    | Returns r => (with_validator r.1 r.2 self, Returns tt)
    | Raises e => (self, Raises e)
    end.
Proof.
  destruct item as [key value].
  unfold parse_item, decode_item, mbind, method_bind, bind, lift,
    setitem__validators. simpl.
  destruct (ValidatorState._make value) as [vs|e]; [|done].
  destruct (_check_validator_state vs) as [[]|e]; done.
Qed.

Lemma for_each_parse_item l self :
  for_each l parse_item self =
    (ConsensusState (aggregate_local_mean self) (total_block_claim_count self)
       (insert_all (decode_items l).1 (_validators self)),
     match (decode_items l).2 with
     | None => Returns tt
     | Some e => Raises e
     end).
Proof.
  revert self. induction l as [|item l IH]; intros self.
  - by destruct self.
  - cbn [for_each decode_items]. unfold mbind, method_bind, bind.
    rewrite parse_item_unfold.
    destruct (decode_item item) as [r|e]; [|by destruct self].
    rewrite IH. by destruct (decode_items l).
Qed.

(** [parse_from_bytes], step by step: where it stops, what it raises and
    what it has assigned by then. *)
Lemma parse_from_bytes_unfold buffer self :
  parse_from_bytes buffer self =
    match cbor_loads buffer with
    | Raises e => (self, Raises (reraised e))
    | Returns (VDict d) =>
        match dict_getitem d "aggregate_local_mean" with
        | Raises e => (self, Raises (reraised e))
        | Returns x =>
        match py_float x with
        | Raises e => (self, Raises (reraised e))
        | Returns alm =>
        let self1 := ConsensusState alm (total_block_claim_count self)
                       (_validators self) in
        match dict_getitem d "total_block_claim_count" with
        | Raises e => (self1, Raises (reraised e))
        | Returns n =>
        match py_int n with
        | Raises e => (self1, Raises (reraised e))
        | Returns tbcc =>
        let self2 := ConsensusState alm tbcc (_validators self) in
        match dict_getitem d "_validators" with
        | Raises e => (self2, Raises (reraised e))
        | Returns validators =>
            if negb (PyFloat.isfinite alm) || PyFloat.ltb alm PyFloat.zero
            then (self2, Raises ValueError)
            else if tbcc <? 0 then (self2, Raises ValueError)
            else
              match validators with
              | VDict l =>
                  (ConsensusState alm tbcc (insert_all (decode_items l).1 ∅),
                   match (decode_items l).2 with
                   | None => Returns tt
                   | Some e => Raises (reraised e)
                   end)
              | _ => (self2, Raises ValueError)
              end
        end end end end end
    | Returns _ => (self, Raises ValueError)
    end.
Proof.
  assert (Hraise : ∀ (st : ConsensusState.t) e,
             (if except_matches e then raise (A:=unit) ValueError else raise e) st
             = (st, Raises (reraised e))).
  { intros st e. unfold reraised, raise. by destruct (except_matches e). }
  unfold parse_from_bytes, try_except, mbind, method_bind, bind, lift.
  destruct (cbor_loads buffer) as [v|e]; [|apply Hraise].
  destruct v; try done. simpl.
  destruct (dict_getitem d "aggregate_local_mean") as [x|e]; [|apply Hraise].
  destruct (py_float x) as [alm|e]; [|apply Hraise]. simpl.
  destruct (dict_getitem d "total_block_claim_count") as [n|e]; [|apply Hraise].
  destruct (py_int n) as [tbcc|e]; [|apply Hraise]. simpl.
  destruct (dict_getitem d "_validators") as [validators|e]; [|apply Hraise].
  unfold attr. cbn [aggregate_local_mean total_block_claim_count].
  destruct (negb (PyFloat.isfinite alm) || PyFloat.ltb alm PyFloat.zero); [done|].
  cbn [aggregate_local_mean total_block_claim_count].
  destruct (tbcc <? 0); [done|].
  destruct validators; try done. simpl.
  rewrite for_each_parse_item. simpl.
  destruct ((decode_items d0).2); [apply Hraise|done].
Qed.

(** *** What the loop stores *)

Lemma record_ok_invariant vs : record_ok vs ↔ record_invariant vs.
Proof.
  unfold record_ok, record_invariant, _check_validator_state.
  destruct vs as [k p n]. cbn [ValidatorState.key_block_claim_count
    ValidatorState.poet_public_key ValidatorState.total_block_claim_count].
  split.
  - destruct (isinstance_int k); [|done]. cbn [negb orb].
    destruct (Z.ltb_spec (int_value k) 0); [done|].
    destruct p as [| | | |s| | | | |]; try done. cbn [isinstance_str negb orb str_len].
    destruct (Z.ltb_spec (Z.of_nat (String.length s)) 1); [done|].
    destruct (isinstance_int n); [|done]. cbn [negb orb].
    destruct (Z.ltb_spec (int_value n) 0); [done|].
    destruct (Z.gtb_spec (int_value k) (int_value n)); [done|].
    intros _. repeat split; try done; try lia.
    exists s. split; [done|]. intros ->. simpl in *. lia.
  - intros (-> & Hk & (s & -> & Hs) & -> & Hn & Hkn).
    cbn [negb orb isinstance_str str_len].
    destruct (Z.ltb_spec (int_value k) 0); [lia|].
    destruct (Z.ltb_spec (Z.of_nat (String.length s)) 1).
    { destruct s; [done|]. simpl in *. lia. }
    destruct (Z.ltb_spec (int_value n) 0); [lia|].
    destruct (Z.gtb_spec (int_value k) (int_value n)); [lia|done].
Qed.

Lemma decode_item_ok item r : decode_item item = Returns r → record_ok r.2.
Proof.
  unfold decode_item, record_ok.
  destruct (ValidatorState._make item.2) as [vs|]; [|done].
  destruct (_check_validator_state vs) as [[]|] eqn:Hc; [|done].
  by intros [= <-].
Qed.

(** Every record the loop stores comes from an item of the dict, through
    [decode_item]. *)
Lemma decode_items_elem l r :
  r ∈ (decode_items l).1 → ∃ item, item ∈ l ∧ decode_item item = Returns r.
Proof.
  induction l as [|item l IH]; simpl; [by intros ?%elem_of_nil|].
  destruct (decode_item item) as [r'|] eqn:Hd; simpl; [|by intros ?%elem_of_nil].
  destruct (decode_items l) as [rs stop]. simpl in *.
  intros [->|Hr]%elem_of_cons.
  - exists item. split; [apply elem_of_cons; by left|done].
  - destruct (IH Hr) as (item' & ? & ?). exists item'.
    split; [apply elem_of_cons; by right|done].
Qed.


Lemma insert_all_lookup recs m k vs :
  insert_all recs m !! k = Some vs → (k, vs) ∈ recs ∨ m !! k = Some vs.
Proof.
  revert m. induction recs as [|[k' vs'] recs IH]; intros m; simpl; [by right|].
  intros [Hin|Hm]%IH.
  - left. apply elem_of_cons. by right.
  - destruct (decide (k' = k)) as [->|Hne].
    + rewrite lookup_insert_eq in Hm. injection Hm as <-.
      left. apply elem_of_cons. by left.
    + rewrite lookup_insert_ne in Hm by done. by right.
Qed.

Lemma insert_all_list_to_map (recs : list (string * ValidatorState.t)) m :
  NoDup recs.*1 → insert_all recs m = list_to_map recs ∪ m.
Proof.
  revert m. induction recs as [|[k vs] recs IH]; intros m Hnd; simpl.
  - by rewrite (left_id_L ∅ (∪)).
  - inversion Hnd as [|?? Hk Hnd']; subst.
    rewrite IH by done.
    rewrite <-insert_union_r, insert_union_l; [done|].
    by apply not_elem_of_list_to_map_1.
Qed.

Lemma insert_all_map_to_list (m : gmap string ValidatorState.t) :
  insert_all (map_to_list m) ∅ = m.
Proof.
  rewrite insert_all_list_to_map by apply NoDup_fst_map_to_list.
  by rewrite list_to_map_to_list, (right_id_L ∅ (∪)).
Qed.

(** *** A call that returns *)

Lemma parse_from_bytes_returns buffer self self' :
  parse_from_bytes buffer self = (self', Returns tt) →
  ∃ d x n l recs,
    cbor_loads buffer = Returns (VDict d)
    ∧ dict_getitem d "aggregate_local_mean" = Returns x
    ∧ py_float x = Returns (aggregate_local_mean self')
    ∧ dict_getitem d "total_block_claim_count" = Returns n
    ∧ py_int n = Returns (total_block_claim_count self')
    ∧ dict_getitem d "_validators" = Returns (VDict l)
    ∧ decode_items l = (recs, None)
    ∧ _validators self' = insert_all recs ∅
    ∧ PyFloat.isfinite (aggregate_local_mean self') = true
    ∧ PyFloat.ltb (aggregate_local_mean self') PyFloat.zero = false
    ∧ 0 ≤ total_block_claim_count self'.
Proof.
  rewrite parse_from_bytes_unfold.
  destruct (cbor_loads buffer) as [v|e] eqn:H0; [|done].
  destruct v as [| | | | | | | |d|]; try done.
  destruct (dict_getitem d "aggregate_local_mean") as [x|e] eqn:H1; [|done].
  destruct (py_float x) as [alm|e] eqn:H2; [|done].
  destruct (dict_getitem d "total_block_claim_count") as [n|e] eqn:H3; [|done].
  destruct (py_int n) as [tbcc|e] eqn:H4; [|done].
  destruct (dict_getitem d "_validators") as [validators|e] eqn:H5; [|done].
  cbv zeta.
  destruct (PyFloat.isfinite alm) eqn:Hfin; [|done].
  destruct (PyFloat.ltb alm PyFloat.zero) eqn:Hlt; [done|]. cbn [negb orb].
  destruct (Z.ltb_spec tbcc 0); [done|].
  destruct validators as [| | | | | | | |l|]; try done.
  destruct (decode_items l) as [recs [e|]] eqn:Hl; [done|].
  intros [= <-]. exists d, x, n, l, recs. by repeat split.
Qed.

(** A call that returns leaves a valid state. *)
Lemma parse_from_bytes_returns_ok buffer self self' :
  parse_from_bytes buffer self = (self', Returns tt) → state_ok self'.
Proof.
  intros (d & x & n & l & recs & _ & _ & _ & _ & _ & _ & Hl & Hv & ? & ? & ?)
    %parse_from_bytes_returns.
  repeat split; try done.
  intros k vs. rewrite Hv. intros [Hin|Hin]%insert_all_lookup.
  - assert (Hr : (k, vs) ∈ (decode_items l).1) by by rewrite Hl.
    apply decode_items_elem in Hr as (item & _ & Hitem).
    by apply decode_item_ok in Hitem.
  - by rewrite lookup_empty in Hin.
Qed.

(** Whatever a call raises went through the [except] clause; when the
    buffer decodes, that is [ValueError] or the [OverflowError] of
    [float()] or [int()]. *)
Lemma parse_from_bytes_raises buffer self self' e :
  parse_from_bytes buffer self = (self', Raises e) →
  (∃ e', cbor_loads buffer = Raises e' ∧ e = reraised e')
  ∨ e = ValueError ∨ e = OverflowError.
Proof.
  assert (Hfloat : ∀ x e, py_float x = Raises e →
            reraised e = ValueError ∨ reraised e = OverflowError).
  { intros x e0. destruct x; simpl; repeat case_match;
      intros [= <-]; auto. }
  assert (Hint : ∀ x e, py_int x = Raises e →
            reraised e = ValueError ∨ reraised e = OverflowError).
  { intros x e0. destruct x; simpl; repeat case_match;
      intros [= <-]; auto. }
  assert (Hget : ∀ d k e, dict_getitem d k = Raises e → e = KeyError).
  { intros d k e0. induction d as [|[k' v] d IH]; simpl; [by intros [= <-]|].
    repeat case_match; auto; done. }
  assert (Hitems : ∀ l e, (decode_items l).2 = Some e →
            reraised e = ValueError).
  { intros l e0. induction l as [|item l IH]; simpl; [done|].
    destruct (decode_item item) as [r|e1] eqn:Hd.
    - destruct (decode_items l). simpl in *. done.
    - simpl. intros [= <-]. unfold decode_item, ValidatorState._make in Hd.
      destruct item as [key value]. simpl in Hd.
      destruct value; simpl in Hd; repeat case_match; simplify_eq;
        try done;
        match goal with
        | Hc : _check_validator_state _ = Raises _ |- _ =>
            unfold _check_validator_state in Hc;
            repeat case_match; by simplify_eq
        end. }
  rewrite parse_from_bytes_unfold.
  destruct (cbor_loads buffer) as [v|e0]; [|intros [= _ <-]; eauto].
  intros Hrun. right. revert Hrun.
  destruct v as [| | | | | | | |d|]; try (intros [= _ <-]; by left).
  destruct (dict_getitem d "aggregate_local_mean") as [x|e0] eqn:H1;
    [|apply Hget in H1 as ->; intros [= _ <-]; by left].
  destruct (py_float x) as [alm|e0] eqn:H2;
    [|intros [= _ <-]; by apply Hfloat in H2].
  destruct (dict_getitem d "total_block_claim_count") as [n|e0] eqn:H3;
    [|apply Hget in H3 as ->; intros [= _ <-]; by left].
  destruct (py_int n) as [tbcc|e0] eqn:H4;
    [|intros [= _ <-]; by apply Hint in H4].
  destruct (dict_getitem d "_validators") as [validators|e0] eqn:H5;
    [|apply Hget in H5 as ->; intros [= _ <-]; by left].
  cbv zeta. repeat case_match; try (intros [= _ <-]; by left); try done.
  intros [= _ <-]. left. eapply Hitems. eassumption.
Qed.

(** A buffer whose three entries are valid is accepted. *)
Lemma parse_from_bytes_accepts buffer self d x alm n tbcc l recs :
  cbor_loads buffer = Returns (VDict d) →
  dict_getitem d "aggregate_local_mean" = Returns x →
  py_float x = Returns alm →
  PyFloat.isfinite alm = true →
  PyFloat.ltb alm PyFloat.zero = false →
  dict_getitem d "total_block_claim_count" = Returns n →
  py_int n = Returns tbcc →
  0 ≤ tbcc →
  dict_getitem d "_validators" = Returns (VDict l) →
  decode_items l = (recs, None) →
  parse_from_bytes buffer self
    = (ConsensusState alm tbcc (insert_all recs ∅), Returns tt).
Proof.
  intros H0 H1 H2 Hfin Hlt H3 H4 Hpos H5 Hl.
  rewrite parse_from_bytes_unfold, H0, H1, H2, H3, H4, H5. cbv zeta.
  rewrite Hfin, Hlt. cbn [negb orb].
  destruct (Z.ltb_spec tbcc 0); [lia|]. by rewrite Hl.
Qed.

(** Two buffers whose dicts agree on the three keys parse alike. *)
Lemma parse_from_bytes_three_keys buffer buffer' d d' self :
  cbor_loads buffer = Returns (VDict d) →
  cbor_loads buffer' = Returns (VDict d') →
  dict_getitem d' "aggregate_local_mean" = dict_getitem d "aggregate_local_mean" →
  dict_getitem d' "total_block_claim_count" = dict_getitem d "total_block_claim_count" →
  dict_getitem d' "_validators" = dict_getitem d "_validators" →
  parse_from_bytes buffer' self = parse_from_bytes buffer self.
Proof.
  intros H0 H0' H1 H2 H3.
  by rewrite !parse_from_bytes_unfold, H0, H0', H1, H2, H3.
Qed.

(** C9.  Let a dict hold a valid ['aggregate_local_mean'] (one [float()]
    turns into a finite number that is not below zero), a valid
    ['total_block_claim_count'] (one [int()] turns into a number that is
    not negative) and a valid ['_validators'] (a dict whose items all
    pass [_make] and the check).  A buffer that decodes to any dict with
    the same three entries, whatever else it holds, is accepted: the
    call returns, and the state it leaves is made of the three entries
    alone. *)
Theorem parse_from_bytes_ignores_other_keys buffer self d d' x alm n tbcc l recs :
  dict_getitem d "aggregate_local_mean" = Returns x →
  py_float x = Returns alm →
  PyFloat.isfinite alm = true →
  PyFloat.ltb alm PyFloat.zero = false →
  dict_getitem d "total_block_claim_count" = Returns n →
  py_int n = Returns tbcc →
  0 ≤ tbcc →
  dict_getitem d "_validators" = Returns (VDict l) →
  decode_items l = (recs, None) →
  cbor_loads buffer = Returns (VDict d') →
  dict_getitem d' "aggregate_local_mean" = dict_getitem d "aggregate_local_mean" →
  dict_getitem d' "total_block_claim_count" = dict_getitem d "total_block_claim_count" →
  dict_getitem d' "_validators" = dict_getitem d "_validators" →
  parse_from_bytes buffer self
    = (ConsensusState alm tbcc (insert_all recs ∅), Returns tt).
Proof.
  intros H1 H2 Hfin Hlt H3 H4 Hpos H5 Hl H0 H1' H3' H5'.
  rewrite <-H1' in H1. rewrite <-H3' in H3. rewrite <-H5' in H5.
  by eapply parse_from_bytes_accepts.
Qed.

(** *** The round trip *)

Lemma cbor_image_ok vs :
  record_ok vs →
  cbor_image (ValidatorState.as_tuple vs)
    = VList [ValidatorState.key_block_claim_count vs;
             ValidatorState.poet_public_key vs;
             ValidatorState.total_block_claim_count vs].
Proof.
  intros (Hk & _ & (s & Hs & _) & Hn & _)%record_ok_invariant.
  destruct vs as [k p n]. simpl in *. subst p.
  destruct k; try done; destruct n; done.
Qed.

Lemma decode_items_image (l : list (string * ValidatorState.t)) :
  Forall (λ kv, record_ok kv.2) l →
  decode_items
    (map (λ kv, (cbor_image kv.1, cbor_image kv.2))
       ((λ kv, (VStr kv.1, ValidatorState.as_tuple kv.2)) <$> l))
    = (l, None).
Proof.
  induction 1 as [|[k vs] l Hvs _ IH]; [done|].
  rewrite fmap_cons. cbn [map decode_items fst snd]. rewrite IH.
  cbn [fst snd] in Hvs.
  unfold decode_item. cbn [fst snd]. rewrite (cbor_image_ok _ Hvs).
  destruct vs as [kc p n]. unfold record_ok in Hvs. simpl in *. by rewrite Hvs.
Qed.

(** C1.  For a valid state (finite aggregate that is not below zero,
    total that is not negative, every record passing the check), on a
    runtime whose [cbor.loads] reads back what [cbor.dumps] wrote for it,
    [parse_from_bytes] on the bytes of [serialize_to_bytes] returns and
    leaves in the target, whatever it held, the same aggregate, the same
    total and the same validator map. *)
Theorem serialize_parse_round_trip self target :
  state_ok self →
  cbor_loads (cbor_dumps (__dict__ self)) = Returns (cbor_image (__dict__ self)) →
  ∃ buffer self',
    serialize_to_bytes self = (self, Returns buffer)
    ∧ parse_from_bytes buffer target = (self', Returns tt)
    ∧ aggregate_local_mean self' = aggregate_local_mean self
    ∧ total_block_claim_count self' = total_block_claim_count self
    ∧ _validators self' = _validators self.
Proof.
  intros (Hfin & Hlt & Hpos & Hrecs) Hcbor.
  exists (cbor_dumps (__dict__ self)), self.
  split; [done|]. split; [|done].
  destruct self as [alm tbcc m].
  cbn [aggregate_local_mean total_block_claim_count _validators] in *.
  set (l := map (λ kv, (cbor_image kv.1, cbor_image kv.2))
              ((λ kv, (VStr kv.1, ValidatorState.as_tuple kv.2))
                 <$> map_to_list m)).
  rewrite (parse_from_bytes_accepts _ target
             [(VStr "aggregate_local_mean", VFloat alm);
              (VStr "total_block_claim_count", VInt tbcc);
              (VStr "_validators", VDict l)]
             (VFloat alm) alm (VInt tbcc) tbcc l (map_to_list m));
    try done.
  - by rewrite insert_all_map_to_list.
  - apply decode_items_image. apply Forall_forall.
    intros [k vs] Hin%elem_of_map_to_list. by apply (Hrecs k).
Qed.

(** *** Reachable states *)

Lemma with_validator_ok k vs self :
  (∀ k' vs', _validators self !! k' = Some vs' → record_invariant vs') →
  record_invariant vs →
  ∀ k' vs', _validators (with_validator k vs self) !! k' = Some vs' →
            record_invariant vs'.
Proof.
  intros Hall Hvs k' vs'. simpl.
  destruct (decide (k = k')) as [->|Hne].
  - rewrite lookup_insert_eq. by intros [= <-].
  - rewrite lookup_insert_ne by done. apply Hall.
Qed.

Lemma default_state_ok validator_info :
  info_ok validator_info → record_invariant (default_state validator_info).
Proof.
  intros Hinfo. unfold record_invariant, default_state. simpl.
  repeat split; try done. eauto.
Qed.

Lemma bumped_ok validator_info vs :
  info_ok validator_info → record_invariant vs →
  ∃ new, bumped validator_info vs = Returns new ∧ record_invariant new.
Proof.
  intros Hinfo (Hk & Hk0 & _ & Hn & Hn0 & Hkn).
  unfold bumped. rewrite (py_add1_int _ Hn), (py_add1_int _ Hk).
  destruct (str_eq _ _); eexists; (split; [reflexivity|]);
    unfold record_invariant; simpl; repeat split; eauto; lia.
Qed.

(** C7.  In every state reached from a fresh [ConsensusState()] by
    reads and claims with well-formed validator infos (a signup key that
    is not empty) and by calls of [parse_from_bytes] that return, every
    record has counts that are [int] instances and not negative, a key
    that is a [str] and not empty, and a count under the current key
    that does not exceed the total. *)
Theorem reachable_records_valid self k vs :
  reachable self →
  _validators self !! k = Some vs →
  record_invariant vs.
Proof.
  intros Hreach. revert k vs.
  induction Hreach as [|self vi Hreach IH Hinfo|self vi wc Hreach IH Hinfo
                      |self buffer self' Hreach IH Hparse]; intros k vs.
  - simpl. by rewrite lookup_empty.
  - rewrite get_validator_state_unfold.
    destruct (_validators self !! ValidatorInfo.id vi) eqn:Hvi; cbn [fst].
    + apply IH.
    + apply with_validator_ok; [done|]. by apply default_state_ok.
  - rewrite validator_did_claim_block_unfold. cbv zeta.
    assert (Hfetched : ∀ k' vs',
              _validators
                (get_validator_state vi
                   (ConsensusState
                      (PyFloat.add (aggregate_local_mean self)
                         (WaitCertificate.local_mean wc))
                      (total_block_claim_count self + 1)
                      (_validators self))).1 !! k' = Some vs' →
              record_invariant vs').
    { rewrite get_validator_state_unfold. simpl.
      destruct (_validators self !! ValidatorInfo.id vi) eqn:Hvi; cbn [fst].
      - apply IH.
      - apply (with_validator_ok _ _ (ConsensusState _ _ _)); [apply IH|].
        by apply default_state_ok. }
    destruct (bumped_ok vi (default (default_state vi)
                              (_validators self !! ValidatorInfo.id vi)) Hinfo)
      as (new & -> & Hnew).
    { destruct (_validators self !! ValidatorInfo.id vi) eqn:Hvi; simpl.
      - by eapply IH.
      - by apply default_state_ok. }
    cbn [fst]. by apply with_validator_ok.
  - intros Hk. apply record_ok_invariant.
    by eapply (parse_from_bytes_returns_ok buffer self self').
Qed.

(** *** A call that raises *)


(** C3 (where the code departs).  A buffer whose ['aggregate_local_mean']
    [float()] takes, whatever its value (a NaN, an infinity, a negative
    number), and whose ['total_block_claim_count'] is a float infinity
    makes [parse_from_bytes] raise [OverflowError], which the [except]
    clause does not turn into [ValueError]; the aggregate is assigned by
    then. *)
Theorem parse_from_bytes_overflow_escapes buffer self d x alm sign :
  cbor_loads buffer = Returns (VDict d) →
  dict_getitem d "aggregate_local_mean" = Returns x →
  py_float x = Returns alm →
  dict_getitem d "total_block_claim_count"
    = Returns (VFloat (S754_infinity sign)) →
  parse_from_bytes buffer self
    = (ConsensusState alm (total_block_claim_count self) (_validators self),
       Raises OverflowError).
Proof.
  intros H0 H1 H2 H3.
  by rewrite parse_from_bytes_unfold, H0, H1, H2, H3.
Qed.

(** A buffer whose ['aggregate_local_mean'] is an [int] beyond the range
    of a float raises [OverflowError] as well, before any assignment. *)
Lemma parse_from_bytes_overflow_aggregate buffer self d z :
  cbor_loads buffer = Returns (VDict d) →
  dict_getitem d "aggregate_local_mean" = Returns (VInt z) →
  PyFloat.of_int z = None →
  parse_from_bytes buffer self = (self, Raises OverflowError).
Proof.
  intros H0 H1 H2.
  rewrite parse_from_bytes_unfold, H0, H1. simpl. by rewrite H2.
Qed.

(** What holds of the four defects: a buffer that decodes to a dict with
    one of them never makes the call return; it raises [ValueError]
    unless [float()] or [int()] raised [OverflowError] first. *)
Lemma parse_from_bytes_rejects buffer self d :
  cbor_loads buffer = Returns (VDict d) →
  (∃ x alm, dict_getitem d "aggregate_local_mean" = Returns x
            ∧ py_float x = Returns alm
            ∧ (PyFloat.isfinite alm = false
               ∨ PyFloat.ltb alm PyFloat.zero = true))
  ∨ (∃ n tbcc, dict_getitem d "total_block_claim_count" = Returns n
               ∧ py_int n = Returns tbcc ∧ tbcc < 0)
  ∨ (∃ l item vs, dict_getitem d "_validators" = Returns (VDict l)
                  ∧ item ∈ l
                  ∧ ValidatorState._make item.2 = Returns vs
                  ∧ ¬ record_invariant vs) →
  ∃ self' e,
    parse_from_bytes buffer self = (self', Raises e)
    ∧ (e = ValueError ∨ e = OverflowError).
Proof.
  intros H0 Hbad.
  destruct (parse_from_bytes buffer self) as [self' [[]|e]] eqn:Hrun.
  - exfalso.
    apply parse_from_bytes_returns in Hrun
      as (d' & x & n & l & recs & H0' & H1 & H2 & H3 & H4 & H5 & Hl
          & _ & Hfin & Hlt & Hpos).
    rewrite H0 in H0'. injection H0' as <-.
    destruct Hbad as [(x' & alm & H1' & H2' & Halm)
                     |[(n' & tbcc & H3' & H4' & Hneg)
                      |(l' & item & vs & H5' & Hin & Hmake & Hvs)]].
    + rewrite H1 in H1'. injection H1' as <-.
      rewrite H2 in H2'. injection H2' as <-.
      destruct Halm; congruence.
    + rewrite H3 in H3'. injection H3' as <-.
      rewrite H4 in H4'. injection H4' as <-. lia.
    + rewrite H5 in H5'. injection H5' as <-.
      assert (Hall : ∀ l recs, decode_items l = (recs, None) →
                ∀ item, item ∈ l → ∃ r, decode_item item = Returns r).
      { clear. intros l. induction l as [|it l IH]; intros recs Hd item;
          [by intros ?%elem_of_nil|].
        simpl in Hd. destruct (decode_item it) as [r|] eqn:Hit; [|done].
        destruct (decode_items l) as [rs stop] eqn:Hl.
        injection Hd as <- ->.
        intros [->|Hin]%elem_of_cons; [eauto|by eapply IH]. }
      destruct (Hall l recs Hl item Hin) as (r & Hr).
      pose proof (decode_item_ok _ _ Hr) as Hok.
      unfold decode_item in Hr. rewrite Hmake in Hr.
      destruct (_check_validator_state vs) as [[]|] eqn:Hc; [|done].
      by apply Hvs, record_ok_invariant.
  - exists self', e. split; [done|].
    apply parse_from_bytes_raises in Hrun as [(e' & He' & _)|Hrun];
      [congruence|done].
Qed.

(** C10 (as amended).  When [parse_from_bytes] returns, the two attributes
    of [self] are what [float()] and [int()] made of the entries of the dict
    (a conversion: a float total comes out as its integer part), while each
    stored record holds, field by field, the items of the decoded value as
    they are, and these are already two [int] instances (an [int] or a
    [bool], which [isinstance] counts among them) around a [str]. *)
Theorem parse_from_bytes_coerces_top_level_only buffer self self' k vs :
  parse_from_bytes buffer self = (self', Returns tt) →
  _validators self' !! k = Some vs →
  ∃ d x n l key value,
    cbor_loads buffer = Returns (VDict d)
    ∧ dict_getitem d "aggregate_local_mean" = Returns x
    ∧ py_float x = Returns (aggregate_local_mean self')
    ∧ dict_getitem d "total_block_claim_count" = Returns n
    ∧ py_int n = Returns (total_block_claim_count self')
    ∧ dict_getitem d "_validators" = Returns (VDict l)
    ∧ (key, value) ∈ l
    ∧ py_str key = k
    ∧ py_iter value
      = Returns [ValidatorState.key_block_claim_count vs;
                 ValidatorState.poet_public_key vs;
                 ValidatorState.total_block_claim_count vs]
    ∧ isinstance_int (ValidatorState.key_block_claim_count vs) = true
    ∧ isinstance_str (ValidatorState.poet_public_key vs) = true
    ∧ isinstance_int (ValidatorState.total_block_claim_count vs) = true.
Proof.
  intros Hrun Hk.
  destruct (parse_from_bytes_returns _ _ _ Hrun)
    as (d & x & n & l & recs & H0 & H1 & H2 & H3 & H4 & H5 & Hl & Hv & _).
  rewrite Hv in Hk. apply insert_all_lookup in Hk as [Hin|Hk];
    [|by rewrite lookup_empty in Hk].
  assert (Hr : (k, vs) ∈ (decode_items l).1) by by rewrite Hl.
  apply decode_items_elem in Hr as ([key value] & Hitem & Hdec).
  pose proof (decode_item_ok _ _ Hdec) as Hok.
  apply record_ok_invariant in Hok as (Hkc & _ & (s & Hs & _) & Hn & _).
  simpl in Hkc, Hs, Hn.
  unfold decode_item, ValidatorState._make in Hdec. simpl in Hdec.
  destruct (py_iter value) as [[|a [|b [|c [|]]]]|] eqn:Hiter; try done.
  destruct (_check_validator_state _) as [[]|]; [|done].
  injection Hdec as <- <-. simpl.
  exists d, x, n, l, key, value. repeat split; try done.
  simpl in Hs. by rewrite Hs.
Qed.

End Parsing.

(** ** The properties on the sample data *)

Import Examples.

(** The claim examples of the specification: from [{key=2, ppk="A",
    total=5}], a claim under ["A"] gives [{3, "A", 6}] and a claim under
    ["B"] gives [{1, "B", 6}]. *)
Example claim_same_key :
  _validators
    (validator_did_claim_block (info "alice" "A") (certificate f2) one_validator).1
    !! "alice" = Some (record 3 "A" 6).
Proof. by vm_compute. Qed.

Example claim_rotated_key :
  _validators
    (validator_did_claim_block (info "alice" "B") (certificate f2) one_validator).1
    !! "alice" = Some (record 1 "B" 6).
Proof. by vm_compute. Qed.

Lemma get_validator_state_stored_witness :
  get_validator_state (info "alice" "B") one_validator
    = (one_validator, Returns (record 2 "A" 5)).
Proof.
  apply (get_validator_state_stored one_validator (info "alice" "B")).
  vm_compute. reflexivity.
Defined.

Lemma get_validator_state_creates_default_witness :
  let created := with_validator "alice" (record 0 "A" 0) __init__ in
  let later :=
    foldl after_call created
      [GetValidatorState (info "bob" "B");
       ValidatorDidClaimBlock (info "bob" "B") (certificate f2);
       GetValidatorState (info "alice" "A2")] in
  get_validator_state (info "alice" "A") __init__
    = (created, Returns (record 0 "A" 0))
  ∧ get_validator_state (info "alice" "A3") later
    = (later, Returns (record 0 "A" 0)).
Proof.
  intros created later.
  destruct (get_validator_state_creates_default __init__ (info "alice" "A")
              [GetValidatorState (info "bob" "B");
               ValidatorDidClaimBlock (info "bob" "B") (certificate f2);
               GetValidatorState (info "alice" "A2")]
              (info "alice" "A3"))
    as (_ & Hfirst & _ & Hlater).
  - vm_compute. reflexivity.
  - reflexivity.
  - repeat constructor; simpl; try tauto. discriminate.
  - split; [exact Hfirst|exact Hlater].
Defined.

Lemma validator_did_claim_block_replaces_witness :
  validator_did_claim_block (info "alice" "B") (certificate f2) one_validator
    = (ConsensusState (PyFloat.add f3_7 f2) 6
         (<["alice" := record 1 "B" 6]> (_validators one_validator)),
       Returns tt).
Proof.
  apply (validator_did_claim_block_replaces one_validator (info "alice" "B")
           (certificate f2) 2 "A" 5).
  vm_compute. reflexivity.
Defined.

Lemma two_validators_ok : state_ok two_validators.
Proof.
  split; [reflexivity|]. split; [reflexivity|]. split; [simpl; lia|].
  intros k vs Hk.
  apply (map_Forall_lookup_1 (λ _ vs, record_ok vs) (_validators two_validators) k vs);
    [|exact Hk].
  repeat apply map_Forall_insert_2; try reflexivity. apply map_Forall_empty.
Defined.

Lemma serialize_parse_round_trip_witness :
  ∃ buffer self',
    serialize_to_bytes (H:=Cbor.runtime) two_validators
      = (two_validators, Returns buffer)
    ∧ parse_from_bytes (H:=Cbor.runtime) buffer one_validator
      = (self', Returns tt)
    ∧ aggregate_local_mean self' = f3_7
    ∧ total_block_claim_count self' = 9
    ∧ _validators self' = _validators two_validators.
Proof.
  apply (serialize_parse_round_trip (H:=Cbor.runtime) two_validators one_validator).
  - exact two_validators_ok.
  - vm_compute. reflexivity.
Defined.

Lemma reachable_records_valid_witness :
  record_invariant (record 1 "A" 1).
Proof.
  apply (reachable_records_valid (H:=Cbor.runtime)
           (validator_did_claim_block (info "alice" "A") (certificate f2) __init__).1
           "alice" (record 1 "A" 1)).
  - apply reachable_claim; [apply reachable_init|]. unfold info_ok. simpl.
    discriminate.
  - vm_compute. reflexivity.
Defined.

Lemma parse_from_bytes_ignores_other_keys_witness :
  parse_from_bytes (H:=Cbor.runtime) with_other_keys one_validator
    = (ConsensusState f2 7 (insert_all [("alice", record 1 "A" 3)] ∅),
       Returns tt).
Proof.
  apply (parse_from_bytes_ignores_other_keys (H:=Cbor.runtime)
           with_other_keys one_validator
           (entries (VFloat f2) (VInt 7)
              [(VStr "alice", VList [VInt 1; VStr "A"; VInt 3])])
           ((VStr "version", VInt 2)
              :: entries (VFloat f2) (VInt 7)
                   [(VStr "alice", VList [VInt 1; VStr "A"; VInt 3])]
              ++ [(VStr "comment", VList [VStr "x"; VNone])])%list
           (VFloat f2) f2 (VInt 7) 7
           [(VStr "alice", VList [VInt 1; VStr "A"; VInt 3])]
           [("alice", record 1 "A" 3)]);
    try (vm_compute; reflexivity).
  lia.
Defined.



Lemma parse_from_bytes_overflow_escapes_witness :
  parse_from_bytes (H:=Cbor.runtime) infinite_total one_validator
    = (ConsensusState minus_one 5 (_validators one_validator),
       Raises OverflowError).
Proof.
  apply (parse_from_bytes_overflow_escapes (H:=Cbor.runtime) infinite_total
           one_validator
           (entries (VFloat minus_one) (VFloat PyFloat.inf) [])
           (VFloat minus_one) minus_one false);
    vm_compute; reflexivity.
Defined.

(** The aggregate [10 ** 400] with a negative total: [OverflowError] again,
    where a [ValueError] for the total was due. *)
Example parse_huge_aggregate :
  parse_from_bytes (H:=Cbor.runtime) huge_aggregate one_validator
    = (one_validator, Raises OverflowError).
Proof. vm_compute. reflexivity. Qed.

Lemma parse_from_bytes_coerces_top_level_only_witness :
  ∃ d x n l key value,
    Cbor.loads float_total = Returns (VDict d)
    ∧ dict_getitem d "aggregate_local_mean" = Returns x
    ∧ py_float (H:=Cbor.runtime) x = Returns f2
    ∧ dict_getitem d "total_block_claim_count" = Returns n
    ∧ py_int (H:=Cbor.runtime) n = Returns 3
    ∧ dict_getitem d "_validators" = Returns (VDict l)
    ∧ (key, value) ∈ l
    ∧ py_str (H:=Cbor.runtime) key = "alice"
    ∧ py_iter value = Returns [VInt 1; VStr "A"; VInt 2]
    ∧ isinstance_int (VInt 1) = true
    ∧ isinstance_str (VStr "A") = true
    ∧ isinstance_int (VInt 2) = true.
Proof.
  apply (parse_from_bytes_coerces_top_level_only (H:=Cbor.runtime) float_total
           one_validator
           (ConsensusState f2 3 (<["alice" := record 1 "A" 2]> ∅))
           "alice" (record 1 "A" 2));
    vm_compute; reflexivity.
Defined.

(** A total of 3.7 is taken and becomes 3; the float 2.0 as the counts of a
    record is refused although 2.0 is a whole number. *)
Example parse_float_total :
  (parse_from_bytes (H:=Cbor.runtime) float_total __init__).2 = Returns tt
  ∧ total_block_claim_count
      (parse_from_bytes (H:=Cbor.runtime) float_total __init__).1 = 3.
Proof. by vm_compute. Qed.

Example parse_float_counts :
  (parse_from_bytes (H:=Cbor.runtime) float_counts __init__).2 = Raises ValueError.
Proof. by vm_compute. Qed.

(** C10 (counterexample).  A record whose counts are [True] is taken and
    stored as it is, although the type of [True] is [bool], not [int]:
    [isinstance(True, int)] holds. *)
Lemma parse_from_bytes_takes_bool_counts :
  ∃ self' vs,
    parse_from_bytes (H:=Cbor.runtime) bool_counts __init__ = (self', Returns tt)
    ∧ _validators self' !! "alice" = Some vs
    ∧ ValidatorState.key_block_claim_count vs = VBool true
    ∧ type_is_int (ValidatorState.key_block_claim_count vs) = false
    ∧ type_is_int (ValidatorState.total_block_claim_count vs) = false.
Proof.
  exists (ConsensusState f2 7
            (<["alice" := ValidatorState.ValidatorState
                            (VBool true) (VStr "A") (VBool true)]> ∅)),
    (ValidatorState.ValidatorState (VBool true) (VStr "A") (VBool true)).
  split; [vm_compute; reflexivity|].
  split; [vm_compute; reflexivity|]. by repeat split.
Qed.

(** * Further properties *)

(** ** Claims *)

(** X1.  The first claim of a validator without a record stores
    [{1, K, 1}] under its identity, [K] being the signup key of the claim,
    and advances the two counters of [self]. *)
Theorem validator_did_claim_block_first self validator_info wait_certificate :
  _validators self !! ValidatorInfo.id validator_info = None →
  validator_did_claim_block validator_info wait_certificate self =
    (ConsensusState
       (PyFloat.add (aggregate_local_mean self)
          (WaitCertificate.local_mean wait_certificate))
       (total_block_claim_count self + 1)
       (<[ValidatorInfo.id validator_info :=
            ValidatorState.ValidatorState
              (VInt 1)
              (VStr (SignupInfo.poet_public_key
                       (ValidatorInfo.signup_info validator_info)))
              (VInt 1)]>
          (_validators self)),
     Returns tt).
Proof.
  intros Hk. rewrite validator_did_claim_block_unfold. cbv zeta.
  rewrite get_validator_state_unfold. simpl. rewrite Hk. simpl.
  unfold bumped. simpl. rewrite String.eqb_refl.
  unfold with_validator. simpl. by rewrite insert_insert_eq.
Qed.

Lemma validator_did_claim_block_first_witness :
  validator_did_claim_block (info "bob" "B") (certificate f2) one_validator
    = (ConsensusState (PyFloat.add f3_7 f2) 6
         (<["bob" := record 1 "B" 1]> (_validators one_validator)),
       Returns tt).
Proof.
  apply (validator_did_claim_block_first one_validator (info "bob" "B")
           (certificate f2)).
  vm_compute. reflexivity.
Defined.

(** X2.  A read or a claim for one validator leaves the record of every
    other validator as it is, present or absent, however the call ends. *)
Theorem after_call_other_validators self c k :
  call_id c ≠ k →
  _validators (after_call self c) !! k = _validators self !! k.
Proof.
  intros Hne. destruct c as [vi|vi wc]; simpl in *.
  - rewrite get_validator_state_unfold.
    destruct (_validators self !! ValidatorInfo.id vi); simpl; [done|].
    by rewrite lookup_insert_ne.
  - rewrite validator_did_claim_block_unfold. cbv zeta.
    rewrite get_validator_state_unfold. simpl.
    destruct (bumped _ _); simpl;
      destruct (_validators self !! ValidatorInfo.id vi); simpl;
      rewrite ?lookup_insert_ne by done; done.
Qed.

Lemma after_call_other_validators_witness :
  _validators
    (after_call one_validator
       (ValidatorDidClaimBlock (info "bob" "B") (certificate f2))) !! "alice"
  = _validators one_validator !! "alice".
Proof.
  apply (after_call_other_validators one_validator
           (ValidatorDidClaimBlock (info "bob" "B") (certificate f2)) "alice").
  simpl. discriminate.
Defined.

(** ** The sign of a sum *)

Lemma shr_1_nonneg mrs : 0 ≤ shr_m mrs → 0 ≤ shr_m (shr_1 mrs).
Proof.
  destruct mrs as [m r s]. simpl. destruct m as [|[p|p|]|[p|p|]]; simpl; lia.
Qed.

Lemma iter_shr_1_nonneg p mrs :
  0 ≤ shr_m mrs → 0 ≤ shr_m (SpecFloat.iter_pos shr_1 p mrs).
Proof.
  revert mrs. induction p as [p IH|p IH|]; intros mrs Hm; simpl.
  - apply IH, IH. by apply shr_1_nonneg.
  - by apply IH, IH.
  - by apply shr_1_nonneg.
Qed.

Lemma shr_fexp_nonneg m e l :
  0 ≤ m → 0 ≤ shr_m (shr_fexp PyFloat.prec PyFloat.emax m e l).1.
Proof.
  intros Hm. unfold shr_fexp, shr.
  assert (H0 : 0 ≤ shr_m (shr_record_of_loc m l)) by by destruct l as [|[]].
  destruct (_ - e); simpl; [done| |done]. by apply iter_shr_1_nonneg.
Qed.

Lemma binary_round_aux_ge0 mx ex lx :
  0 ≤ mx →
  float_ge0 (binary_round_aux PyFloat.prec PyFloat.emax false mx ex lx) = true.
Proof.
  intros Hm. unfold binary_round_aux.
  pose proof (shr_fexp_nonneg mx ex lx Hm) as H1.
  destruct (shr_fexp PyFloat.prec PyFloat.emax mx ex lx) as [mrs' e'].
  simpl in H1.
  set (m1 := round_nearest_even (shr_m mrs') (loc_of_shr_record mrs')).
  assert (Hm1 : 0 ≤ m1).
  { subst m1. unfold round_nearest_even.
    destruct (loc_of_shr_record mrs') as [|[]]; try done; try lia.
    destruct (Z.even _); lia. }
  pose proof (shr_fexp_nonneg m1 e' loc_Exact Hm1) as H2.
  destruct (shr_fexp PyFloat.prec PyFloat.emax m1 e' loc_Exact) as [mrs'' e''].
  simpl in H2. destruct (shr_m mrs''); [done| |lia].
  by destruct (_ <=? _)%Z.
Qed.

Lemma add_ge0 x y :
  float_ge0 x = true → float_ge0 y = true → float_ge0 (PyFloat.add x y) = true.
Proof.
  destruct x as [sx|[]| |[] mx ex]; try done;
    destruct y as [sy|[]| |[] my ey]; try done; intros _ _.
  - by destruct sx, sy.
  - unfold PyFloat.add, SFadd, cond_Zopp, binary_normalize.
    destruct (shl_align mx ex _) as [mx' ?], (shl_align my ey _) as [my' ?].
    cbn [fst]. unfold binary_round.
    change (Z.pos mx' + Z.pos my') with (Z.pos (mx' + my')). cbv beta iota.
    match goal with
    | |- context [shl_align ?a ?b ?c] => destruct (shl_align a b c) as [mz ez]
    end.
    by apply binary_round_aux_ge0.
Qed.

(** ** Claims, one after the other *)

Lemma claim_all_snoc claims c self :
  claim_all (claims ++ [c]) self =
    match claim_all claims self with
    | (self', Returns _) => validator_did_claim_block c.1 c.2 self'
    | (self', Raises e) => (self', Raises e)
    end.
Proof.
  revert self. unfold claim_all.
  induction claims as [|c' claims IH]; intros self; simpl.
  - unfold mbind, method_bind, bind, ret.
    destruct (validator_did_claim_block c.1 c.2 self) as [self' [[]|e]]; done.
  - unfold mbind, method_bind, bind in *.
    destruct (validator_did_claim_block c'.1 c'.2 self) as [self1 [[]|e]]; [|done].
    apply IH.
Qed.

(** X3.  From a fresh [ConsensusState()], claims with local means that are
    [>= 0] (so none of them a NaN) leave an aggregate that is [>= 0]: the
    sum is never negative and never a NaN. *)
Theorem claim_all_aggregate_ge0 (claims : list (ValidatorInfo.t * WaitCertificate.t)) :
  Forall (λ c, float_ge0 (WaitCertificate.local_mean c.2) = true) claims →
  float_ge0 (aggregate_local_mean (claim_all claims __init__).1) = true.
Proof.
  intros Hall.
  destruct (claim_all_counts claims __init__) as (self' & Hrun & Halm & _).
  { intros k vs. simpl. by rewrite lookup_empty. }
  rewrite Hrun. cbn [fst]. rewrite Halm.
  cbn [aggregate_local_mean __init__]. clear Hrun Halm self'.
  assert (Hacc : float_ge0 PyFloat.zero = true) by done.
  revert Hacc. generalize PyFloat.zero.
  induction Hall as [|c claims Hc _ IH]; intros acc Hacc; simpl; [done|].
  apply IH. by apply add_ge0.
Qed.

Lemma claim_all_aggregate_ge0_witness :
  float_ge0
    (aggregate_local_mean
       (claim_all [(info "alice" "A", certificate f2);
                   (info "bob" "B", certificate f3_7)] __init__).1) = true.
Proof.
  apply (claim_all_aggregate_ge0
           [(info "alice" "A", certificate f2);
            (info "bob" "B", certificate f3_7)]).
  repeat constructor.
Defined.

Lemma validator_did_claim_block_frame self validator_info wait_certificate k :
  ValidatorInfo.id validator_info ≠ k →
  _validators (validator_did_claim_block validator_info wait_certificate self).1 !! k
  = _validators self !! k.
Proof.
  intros Hne. rewrite validator_did_claim_block_unfold. cbv zeta.
  rewrite get_validator_state_unfold. simpl.
  destruct (bumped _ _); simpl;
    destruct (_validators self !! ValidatorInfo.id validator_info); simpl;
    rewrite ?lookup_insert_ne by done; done.
Qed.

Lemma validator_did_claim_block_tallied self validator_info wait_certificate keys :
  _validators self !! ValidatorInfo.id validator_info = tallied keys →
  ∃ self',
    validator_did_claim_block validator_info wait_certificate self
      = (self', Returns tt)
    ∧ _validators self' !! ValidatorInfo.id validator_info
      = tallied (keys ++ [SignupInfo.poet_public_key
                            (ValidatorInfo.signup_info validator_info)]).
Proof.
  intros Hk. rewrite validator_did_claim_block_unfold. cbv zeta.
  rewrite get_validator_state_unfold. simpl. rewrite Hk.
  set (K := SignupInfo.poet_public_key (ValidatorInfo.signup_info validator_info)).
  unfold tallied. rewrite reverse_snoc, length_app. simpl.
  destruct (reverse keys) as [|P earlier] eqn:Hrev; simpl.
  - unfold bumped. simpl. fold K. rewrite String.eqb_refl.
    eexists. split; [reflexivity|].
    unfold with_validator. cbn [_validators].
    etrans; [apply lookup_insert_eq|].
    apply (f_equal reverse) in Hrev. rewrite reverse_involutive in Hrev.
    subst keys. reflexivity.
  - unfold bumped. simpl. fold K. rewrite (String.eqb_sym P K).
    destruct (String.eqb_spec K P) as [->|Hne];
      (eexists; split; [reflexivity|]);
      unfold with_validator; cbn [_validators];
      (etrans; [apply lookup_insert_eq|]);
      do 2 f_equal; f_equal; lia.
Qed.

Lemma keys_of_snoc k claims c :
  keys_of k (claims ++ [c]) =
    (keys_of k claims
       ++ (if decide (ValidatorInfo.id c.1 = k)
           then [SignupInfo.poet_public_key (ValidatorInfo.signup_info c.1)]
           else []))%list.
Proof.
  unfold keys_of. rewrite filter_app, fmap_app. f_equal.
  rewrite filter_cons, filter_nil. by destruct (decide _).
Qed.

(** X4.  After any claims on a fresh [ConsensusState()], the record of a
    validator is made of its own claims alone: [total_block_claim_count] is
    the number of its claims, [poet_public_key] the key of its last claim,
    [key_block_claim_count] the length of the run of claims under that key
    that ends its claims; a validator that did not claim has no record. *)
Theorem claim_all_tallied (claims : list (ValidatorInfo.t * WaitCertificate.t))
    (k : string) :
  _validators (claim_all claims __init__).1 !! k = tallied (keys_of k claims).
Proof.
  assert (Hall : ∃ self',
            claim_all claims __init__ = (self', Returns tt)
            ∧ ∀ k, _validators self' !! k = tallied (keys_of k claims)).
  { induction claims as [|c claims (self1 & Hrun & IH)] using rev_ind.
    - exists __init__. split; [done|]. intros k'. simpl. by rewrite lookup_empty.
    - destruct c as [vi wc].
      destruct (validator_did_claim_block_tallied self1 vi wc
                  (keys_of (ValidatorInfo.id vi) claims) (IH _))
        as (self2 & Hstep & Hvi).
      exists self2. rewrite claim_all_snoc, Hrun. split; [done|].
      intros k'. rewrite keys_of_snoc. cbn [fst].
      destruct (decide (ValidatorInfo.id vi = k')) as [<-|Hne]; [done|].
      rewrite (right_id_L [] (++)%list), <-IH.
      pose proof (validator_did_claim_block_frame self1 vi wc k' Hne) as Hf.
      by rewrite Hstep in Hf. }
  destruct Hall as (self' & -> & Hk). apply Hk.
Qed.

(** ** The total and the records *)

Lemma total_sum_insert m k vs :
  total_sum (<[k := vs]> m) =
    total_sum m
    - from_option (λ old, int_value (ValidatorState.total_block_claim_count old))
        0 (m !! k)
    + int_value (ValidatorState.total_block_claim_count vs).
Proof.
  unfold total_sum.
  destruct (m !! k) as [old|] eqn:Hk; simpl.
  - rewrite <-insert_delete_eq.
    rewrite map_fold_insert_L; [|intros; lia|apply lookup_delete_eq].
    rewrite (map_fold_delete_L _ _ k old m); [lia|intros; lia|done].
  - rewrite map_fold_insert_L; [lia|intros; lia|done].
Qed.

Lemma after_call_total_sum self c :
  counts_are_ints self →
  total_block_claim_count self = total_sum (_validators self) →
  counts_are_ints (after_call self c)
  ∧ total_block_claim_count (after_call self c)
    = total_sum (_validators (after_call self c)).
Proof.
  intros Hints Hsum. destruct c as [vi|vi wc]; cbn [after_call].
  - rewrite get_validator_state_unfold.
    destruct (_validators self !! ValidatorInfo.id vi) eqn:Hvi; cbn [fst];
      [done|].
    unfold with_validator.
    cbn [_validators total_block_claim_count aggregate_local_mean].
    split.
    + intros k' vs'. cbn [_validators].
      destruct (decide (ValidatorInfo.id vi = k')) as [<-|Hne].
      * rewrite lookup_insert_eq. by intros [= <-].
      * rewrite lookup_insert_ne by done. apply Hints.
    + rewrite total_sum_insert, Hvi. simpl. lia.
  - destruct (validator_did_claim_block_counts self vi wc Hints)
      as (self' & Hrun & _ & Htot & Hints').
    rewrite Hrun. cbn [fst]. split; [done|]. rewrite Htot.
    revert Hrun. rewrite validator_did_claim_block_unfold. cbv zeta.
    rewrite get_validator_state_unfold. simpl.
    set (vs := default _ _).
    assert (Hvs : isinstance_int (ValidatorState.key_block_claim_count vs) = true
                  ∧ isinstance_int (ValidatorState.total_block_claim_count vs) = true).
    { subst vs. destruct (_validators self !! _) eqn:Hk; simpl; [eauto|done]. }
    destruct Hvs as [Hkey Htotal].
    assert (Hb : ∃ new, bumped vi vs = Returns new
               ∧ int_value (ValidatorState.total_block_claim_count new)
                 = int_value (ValidatorState.total_block_claim_count vs) + 1).
    { unfold bumped. rewrite (py_add1_int _ Htotal), (py_add1_int _ Hkey).
      destruct (str_eq _ _); eauto. }
    destruct Hb as (new & -> & Hnew). intros [= <-].
    subst vs.
    destruct (_validators self !! ValidatorInfo.id vi) as [old|] eqn:Hvi;
      simpl in *.
    + rewrite total_sum_insert, Hvi. simpl. lia.
    + rewrite insert_insert_eq, total_sum_insert, Hvi. simpl. lia.
Qed.

(** X5.  After any reads and claims on a fresh [ConsensusState()], for any
    validators and keys, [total_block_claim_count] of the state is the sum
    of the [total_block_claim_count] of the records. *)
Theorem after_calls_total_sum (calls : list call) :
  total_block_claim_count (foldl after_call __init__ calls)
  = total_sum (_validators (foldl after_call __init__ calls)).
Proof.
  assert (Hinv : counts_are_ints (foldl after_call __init__ calls)
                 ∧ total_block_claim_count (foldl after_call __init__ calls)
                   = total_sum (_validators (foldl after_call __init__ calls))).
  { induction calls as [|c calls [IH1 IH2]] using rev_ind.
    - split; [|done]. intros k vs. simpl. by rewrite lookup_empty.
    - rewrite foldl_snoc. by apply after_call_total_sum. }
  apply Hinv.
Qed.

(** ** The record check *)

Lemma check_validator_state_spec_raises vs e :
  _check_validator_state vs = Raises e → e = ValueError.
Proof.
  unfold _check_validator_state. repeat case_match; by intros [= <-].
Qed.

(** X6.  [_check_validator_state] returns exactly for the records that
    keep the invariant (counts that are [int] instances and not negative,
    a key that is a [str] and not empty, the count under the key not above
    the total), and what it raises otherwise is always [ValueError], also
    for fields of a wrong type. *)
Theorem check_validator_state_spec (vs : ValidatorState.t) :
  (_check_validator_state vs = Returns tt ↔ record_invariant vs)
  ∧ (∀ e, _check_validator_state vs = Raises e → e = ValueError).
Proof.
  split; [apply record_ok_invariant|].
  intros e. apply check_validator_state_spec_raises.
Qed.

(** ** More on parsing *)

Section MoreParsing.
Context `{Runtime}.

(** X7.  [parse_from_bytes] replaces, it does not merge: whether the call
    returns and what it raises do not depend on the instance it is called
    on, and when it returns, what it leaves does not either. *)
Theorem parse_from_bytes_replaces buffer self1 self2 :
  (parse_from_bytes buffer self1).2 = (parse_from_bytes buffer self2).2
  ∧ ((parse_from_bytes buffer self1).2 = Returns tt →
     (parse_from_bytes buffer self1).1 = (parse_from_bytes buffer self2).1).
Proof.
  rewrite !parse_from_bytes_unfold.
  destruct (cbor_loads buffer) as [v|e]; [|done].
  destruct v as [| | | | | | | |d|]; try done.
  destruct (dict_getitem d "aggregate_local_mean") as [x|e]; [|done].
  destruct (py_float x) as [alm|e]; [|done].
  destruct (dict_getitem d "total_block_claim_count") as [n|e]; [|done].
  destruct (py_int n) as [tbcc|e]; [|done].
  destruct (dict_getitem d "_validators") as [validators|e]; [|done].
  cbv zeta.
  destruct (negb (PyFloat.isfinite alm) || PyFloat.ltb alm PyFloat.zero); [done|].
  destruct (tbcc <? 0); [done|].
  destruct validators; done.
Qed.

Lemma decode_items_stop l e :
  (decode_items l).2 = Some e → e = ValueError ∨ e = TypeError.
Proof.
  induction l as [|[key value] l IH]; simpl; [done|].
  destruct (decode_item (key, value)) as [r|e1] eqn:Hd.
  - destruct (decode_items l). simpl in *. done.
  - simpl. intros [= <-]. unfold decode_item, ValidatorState._make in Hd.
    simpl in Hd.
    destruct (py_iter value) as [[|a [|b [|c [|]]]]|e2] eqn:Hiter;
      try (injection Hd as <-; by right).
    + destruct (_check_validator_state _) as [[]|e3] eqn:Hc; [done|].
      injection Hd as <-. left.
      by eapply check_validator_state_spec_raises.
    + injection Hd as <-. right. destruct value; simpl in Hiter; congruence.
Qed.

(** X8.  What comes out of [parse_from_bytes]: when the call raises, the
    exception is [ValueError], or the [OverflowError] of a conversion, or an
    exception of [cbor.loads] that the [except] clause does not name; a
    [KeyError] for a missing entry or a [TypeError] for a value of the wrong
    shape never comes out as such. *)
Theorem parse_from_bytes_exceptions buffer self self' e :
  parse_from_bytes buffer self = (self', Raises e) →
  e = ValueError ∨ e = OverflowError
  ∨ (e = OtherError ∧ cbor_loads buffer = Raises OtherError ∧ self' = self).
Proof.
  intros Hrun.
  destruct (parse_from_bytes_raises _ _ _ _ Hrun) as [(e' & He' & ->)|[->| ->]];
    [|by left|by right; left].
  revert Hrun. rewrite parse_from_bytes_unfold, He'. intros [= <-].
  destruct e'; simpl; auto.
Qed.

Lemma py_float_overflow x :
  py_float x = Raises OverflowError ↔ ∃ z, x = VInt z ∧ PyFloat.of_int z = None.
Proof.
  split.
  - destruct x; simpl; repeat case_match; try done. eauto.
  - intros (z & -> & Hz). simpl. by rewrite Hz.
Qed.

Lemma py_int_overflow n :
  py_int n = Raises OverflowError ↔ ∃ s, n = VFloat (S754_infinity s).
Proof.
  split.
  - destruct n; simpl; repeat case_match; try done. eauto.
  - by intros (s & ->).
Qed.

(** X9.  When the buffer decodes, [parse_from_bytes] lets an
    [OverflowError] out in exactly two cases: the buffer is a dict whose
    ['aggregate_local_mean'] is an [int] beyond the range of a float, or a
    dict whose ['aggregate_local_mean'] [float()] takes and whose
    ['total_block_claim_count'] is a float infinity. *)
Theorem parse_from_bytes_overflow_iff buffer self v :
  cbor_loads buffer = Returns v →
  (parse_from_bytes buffer self).2 = Raises OverflowError
  ↔ ∃ d, v = VDict d
         ∧ ((∃ z, dict_getitem d "aggregate_local_mean" = Returns (VInt z)
                  ∧ PyFloat.of_int z = None)
            ∨ (∃ x alm s,
                 dict_getitem d "aggregate_local_mean" = Returns x
                 ∧ py_float x = Returns alm
                 ∧ dict_getitem d "total_block_claim_count"
                   = Returns (VFloat (S754_infinity s)))).
Proof.
  intros H0.
  assert (Hget : ∀ d k e, dict_getitem d k = Raises e → e = KeyError).
  { intros d k e0. induction d as [|[k' w] d IH]; simpl; [by intros [= <-]|].
    repeat case_match; auto; done. }
  rewrite parse_from_bytes_unfold, H0.
  destruct v as [| | | | | | | |d|];
    try (split; [done|by intros (d & ? & _)]).
  destruct (dict_getitem d "aggregate_local_mean") as [x|e] eqn:H1.
  2:{ pose proof (Hget _ _ _ H1) as ->. split; [done|].
      intros (d' & [= <-] & [(z & ? & _)|(x & alm & s & ? & _)]); congruence. }
  destruct (py_float x) as [alm|e] eqn:H2.
  2:{ simpl. split.
      - intros [= He]. exists d. split; [done|]. left.
        unfold reraised in He. destruct e; try done.
        apply py_float_overflow in H2 as (z & -> & Hz). eauto.
      - intros (d' & [= <-] & [(z & Hz1 & Hz2)|(x' & alm & s & Hx & Hf & _)]).
        + rewrite H1 in Hz1. injection Hz1 as ->. simpl in H2.
          rewrite Hz2 in H2. by injection H2 as <-.
        + rewrite H1 in Hx. injection Hx as <-. congruence. }
  cbv zeta.
  destruct (dict_getitem d "total_block_claim_count") as [n|e] eqn:H3.
  2:{ pose proof (Hget _ _ _ H3) as ->. split; [done|].
      intros (d' & [= <-] & [(z & Hz1 & Hz2)|(x' & alm' & s & _ & _ & ?)]);
        [|congruence].
      rewrite H1 in Hz1. injection Hz1 as ->. simpl in H2. by rewrite Hz2 in H2. }
  destruct (py_int n) as [tbcc|e] eqn:H4.
  2:{ simpl. split.
      - intros [= He]. exists d. split; [done|]. right.
        unfold reraised in He. destruct e; try done.
        apply py_int_overflow in H4 as (s & ->). by exists x, alm, s.
      - intros (d' & [= <-] & [(z & Hz1 & Hz2)|(x' & alm' & s & _ & _ & Hn)]).
        + rewrite H1 in Hz1. injection Hz1 as ->. simpl in H2.
          by rewrite Hz2 in H2.
        + rewrite H3 in Hn. injection Hn as ->. simpl in H4.
          by injection H4 as <-. }
  assert (Hno : ¬ ∃ d', VDict d = VDict d'
              ∧ ((∃ z, dict_getitem d' "aggregate_local_mean" = Returns (VInt z)
                       ∧ PyFloat.of_int z = None)
                 ∨ (∃ x alm s,
                      dict_getitem d' "aggregate_local_mean" = Returns x
                      ∧ py_float x = Returns alm
                      ∧ dict_getitem d' "total_block_claim_count"
                        = Returns (VFloat (S754_infinity s))))).
  { intros (d' & [= <-] & [(z & Hz1 & Hz2)|(x' & alm' & s & _ & _ & Hn)]).
    - rewrite H1 in Hz1. injection Hz1 as ->. simpl in H2. by rewrite Hz2 in H2.
    - rewrite H3 in Hn. injection Hn as ->. done. }
  split; [|by intros ?%Hno].
  destruct (dict_getitem d "_validators") as [validators|e] eqn:H5.
  2:{ by pose proof (Hget _ _ _ H5) as ->. }
  destruct (negb (PyFloat.isfinite alm) || PyFloat.ltb alm PyFloat.zero); [done|].
  destruct (tbcc <? 0); [done|].
  destruct validators as [| | | | | | | |l|]; try done. simpl.
  destruct ((decode_items l).2) as [e|] eqn:Hl; [|done].
  by apply decode_items_stop in Hl as [-> | ->].
Qed.

(** X10.  A buffer that decodes to something that is not a dict, or to a
    dict without ['aggregate_local_mean'] (the empty dict for one), makes
    [parse_from_bytes] raise [ValueError] and leaves [self] as it was. *)
Theorem parse_from_bytes_no_aggregate buffer self v :
  cbor_loads buffer = Returns v →
  isinstance_dict v = false
  ∨ (∃ d, v = VDict d ∧ ∀ x, (VStr "aggregate_local_mean", x) ∉ d) →
  parse_from_bytes buffer self = (self, Raises ValueError).
Proof.
  intros H0 Hv. rewrite parse_from_bytes_unfold, H0.
  destruct Hv as [Hv|(d & -> & Hd)]; [by destruct v|].
  assert (Hmiss : dict_getitem d "aggregate_local_mean" = Raises KeyError).
  { clear H0. induction d as [|[k w] d IH]; [done|].
    assert (Hrest : ∀ x, (VStr "aggregate_local_mean", x) ∉ d).
    { intros x Hx. apply (Hd x). apply elem_of_cons. by right. }
    specialize (IH Hrest).
    destruct k as [| | | |s| | | | |]; try exact IH.
    cbn [dict_getitem].
    destruct (String.eqb_spec s "aggregate_local_mean") as [->|_]; [|exact IH].
    exfalso. apply (Hd w). apply elem_of_cons. by left. }
  by rewrite Hmiss.
Qed.

Lemma decode_items_app l1 l2 recs1 :
  decode_items l1 = (recs1, None) →
  decode_items (l1 ++ l2)
  = ((recs1 ++ (decode_items l2).1)%list, (decode_items l2).2).
Proof.
  revert recs1. induction l1 as [|item l1 IH]; intros recs1; simpl.
  - intros [= <-]. by destruct (decode_items l2).
  - destruct (decode_item item) as [r|]; [|done].
    destruct (decode_items l1) as [rs stop] eqn:Hl1.
    intros [= <- ->]. by rewrite (IH rs eq_refl).
Qed.

Lemma decode_items_all l recs :
  decode_items l = (recs, None) →
  Forall2 (λ item r, decode_item item = Returns r) l recs.
Proof.
  revert recs. induction l as [|item l IH]; intros recs; simpl.
  - intros [= <-]. constructor.
  - destruct (decode_item item) as [r|] eqn:Hd; [|done].
    destruct (decode_items l) as [rs stop]. intros [= <- ->].
    constructor; [done|]. by apply IH.
Qed.

Lemma decode_items_split l1 item l2 recs :
  decode_items (l1 ++ item :: l2) = (recs, None) →
  ∃ recs1 r recs2,
    recs = (recs1 ++ r :: recs2)%list
    ∧ decode_item item = Returns r
    ∧ Forall2 (λ item r, decode_item item = Returns r) l2 recs2.
Proof.
  intros Hall%decode_items_all.
  apply Forall2_app_inv_l in Hall as (recs1 & recs' & _ & Hrest & ->).
  apply Forall2_cons_inv_l in Hrest as (r & recs2 & Hr & Hrest & ->).
  by exists recs1, r, recs2.
Qed.

Lemma insert_all_last recs1 r recs2 (m : gmap string ValidatorState.t) :
  r.1 ∉ recs2.*1 →
  insert_all (recs1 ++ r :: recs2) m !! r.1 = Some r.2.
Proof.
  intros Hnot. unfold insert_all. rewrite foldl_app. simpl.
  generalize (foldl (λ m r, <[r.1 := r.2]> m) m recs1). intros m1.
  assert (Hm : <[r.1 := r.2]> m1 !! r.1 = Some r.2) by apply lookup_insert_eq.
  revert Hm. generalize (<[r.1 := r.2]> m1).
  induction recs2 as [|r' recs2 IH]; intros m2 Hm; simpl; [done|].
  apply not_elem_of_cons in Hnot as [Hne Hnot].
  apply IH; [done|]. by rewrite lookup_insert_ne.
Qed.

(** X11.  When [parse_from_bytes] returns, every item of the decoded
    ['_validators'] dict whose [str(key)] no later item shares is stored
    under that [str(key)], made of its three items; of the items that
    share a [str(key)] (the [int] 1 and the [str] ['1']), the last one
    wins. *)
Theorem parse_from_bytes_last_item_wins buffer self self' d l1 key value l2 :
  parse_from_bytes buffer self = (self', Returns tt) →
  cbor_loads buffer = Returns (VDict d) →
  dict_getitem d "_validators" = Returns (VDict (l1 ++ (key, value) :: l2)) →
  (∀ item, item ∈ l2 → py_str item.1 ≠ py_str key) →
  ∃ vs, ValidatorState._make value = Returns vs
        ∧ _validators self' !! py_str key = Some vs.
Proof.
  intros Hrun H0 H5 Hlast.
  apply parse_from_bytes_returns in Hrun
    as (d' & x & n & l & recs & H0' & _ & _ & _ & _ & H5' & Hl & -> & _).
  rewrite H0 in H0'. injection H0' as <-.
  rewrite H5 in H5'. injection H5' as <-.
  apply decode_items_split in Hl as (recs1 & r & recs2 & -> & Hr & Hrest).
  unfold decode_item in Hr. cbn [fst snd] in Hr.
  destruct (ValidatorState._make value) as [vs|]; [|done].
  destruct (_check_validator_state vs) as [[]|]; [|done].
  injection Hr as <-. exists vs. split; [done|].
  apply (insert_all_last recs1 (py_str key, vs) recs2).
  cbn [fst]. intros (r' & Hkey & Hin)%list_elem_of_fmap.
  apply list_elem_of_lookup in Hin as (i & Hi).
  destruct (Forall2_lookup_r _ _ _ _ _ Hrest Hi) as (item & Hitem & Hdec).
  apply (Hlast item); [by eapply list_elem_of_lookup_2|].
  unfold decode_item in Hdec.
  destruct (ValidatorState._make item.2) as [vs'|]; [|done].
  destruct (_check_validator_state vs') as [[]|]; [|done].
  injection Hdec as <-. done.
Qed.

Lemma decode_items_fails l item e0 :
  item ∈ l → decode_item item = Raises e0 → ∃ e, (decode_items l).2 = Some e.
Proof.
  induction l as [|item' l IH]; [by intros ?%elem_of_nil|].
  intros Hin Hitem. simpl.
  destruct (decode_item item') as [r|e1] eqn:Hd; [|by eexists].
  apply elem_of_cons in Hin as [->|Hin]; [congruence|].
  destruct (IH Hin Hitem) as (e & He).
  destruct (decode_items l) as [rs stop]. simpl in *. by exists e.
Qed.

Lemma decode_item_not_a_record key value :
  not_a_record value → ∃ e, decode_item (key, value) = Raises e.
Proof.
  unfold decode_item, ValidatorState._make. cbn [snd].
  intros [Hiter|[(s & ->)|(b & ->)]].
  - destruct (py_iter value) as [[|a [|b [|c [|]]]]|e]; try by eexists.
    by destruct (Hiter a b c).
  - simpl. destruct (list_ascii_of_string s) as [|a [|b [|c [|]]]];
      simpl; by eexists.
  - simpl. destruct b as [|a [|b [|c [|]]]]; simpl; try by eexists.
    unfold _check_validator_state. simpl.
    destruct (_ <? 0); simpl; by eexists.
Qed.

(** X12.  Once the two aggregates of a buffer are accepted, one value of
    the ['_validators'] dict that cannot stand for a record (not exactly
    three items, or a [str] or [bytes] of any length), wherever it is in
    the dict, makes [parse_from_bytes] raise [ValueError]. *)
Theorem parse_from_bytes_bad_record buffer self d x alm n tbcc l key value :
  cbor_loads buffer = Returns (VDict d) →
  dict_getitem d "aggregate_local_mean" = Returns x →
  py_float x = Returns alm →
  PyFloat.isfinite alm = true →
  PyFloat.ltb alm PyFloat.zero = false →
  dict_getitem d "total_block_claim_count" = Returns n →
  py_int n = Returns tbcc →
  0 ≤ tbcc →
  dict_getitem d "_validators" = Returns (VDict l) →
  (key, value) ∈ l →
  not_a_record value →
  (parse_from_bytes buffer self).2 = Raises ValueError.
Proof.
  intros H0 H1 H2 Hfin Hlt H3 H4 Hpos H5 Hin Hbad.
  rewrite parse_from_bytes_unfold, H0, H1, H2, H3, H4, H5. cbv zeta.
  rewrite Hfin, Hlt. cbn [negb orb].
  destruct (Z.ltb_spec tbcc 0); [lia|].
  destruct (decode_item_not_a_record key value Hbad) as (e0 & He0).
  destruct (decode_items_fails l _ _ Hin He0) as (e & He).
  cbn [snd]. rewrite He.
  by destruct (decode_items_stop _ _ He) as [-> | ->].
Qed.

(** X13.  Whatever [parse_from_bytes] does with the aggregates and
    however it ends, it never leaves a record that breaks the invariant:
    if every record of [self] keeps it before the call, so does every
    record after. *)
Theorem parse_from_bytes_records_stay_valid buffer self k vs :
  (∀ k vs, _validators self !! k = Some vs → record_invariant vs) →
  _validators (parse_from_bytes buffer self).1 !! k = Some vs →
  record_invariant vs.
Proof.
  intros Hself. rewrite parse_from_bytes_unfold.
  destruct (cbor_loads buffer) as [v|e]; [|apply Hself].
  destruct v as [| | | | | | | |d|]; try apply Hself.
  destruct (dict_getitem d "aggregate_local_mean") as [x|e]; [|apply Hself].
  destruct (py_float x) as [alm|e]; [|apply Hself].
  destruct (dict_getitem d "total_block_claim_count") as [n|e]; [|apply Hself].
  destruct (py_int n) as [tbcc|e]; [|apply Hself].
  destruct (dict_getitem d "_validators") as [validators|e]; [|apply Hself].
  cbv zeta.
  destruct (negb (PyFloat.isfinite alm) || PyFloat.ltb alm PyFloat.zero);
    [apply Hself|].
  destruct (tbcc <? 0); [apply Hself|].
  destruct validators as [| | | | | | | |l|]; try apply Hself.
  cbn [fst _validators]. intros [Hin|Hin]%insert_all_lookup.
  - apply decode_items_elem in Hin as (item & _ & Hitem).
    by apply record_ok_invariant, (decode_item_ok item (k, vs)).
  - by rewrite lookup_empty in Hin.
Qed.

Lemma reachable_counts_are_ints self : reachable self → counts_are_ints self.
Proof.
  induction 1 as [|self vi Hreach IH _|self vi wc Hreach IH _
                 |self buffer self' Hreach IH Hparse].
  - intros k vs. simpl. by rewrite lookup_empty.
  - rewrite get_validator_state_unfold.
    destruct (_validators self !! ValidatorInfo.id vi); cbn [fst]; [done|].
    intros k vs. unfold with_validator. cbn [_validators].
    destruct (decide (ValidatorInfo.id vi = k)) as [<-|Hne].
    + rewrite lookup_insert_eq. by intros [= <-].
    + rewrite lookup_insert_ne by done. apply IH.
  - destruct (validator_did_claim_block_counts self vi wc IH)
      as (self' & -> & _ & _ & Hints). done.
  - intros k vs Hk.
    destruct (parse_from_bytes_returns_ok _ _ _ Hparse) as (_ & _ & _ & Hok).
    apply Hok, record_ok_invariant in Hk as (? & _ & _ & ? & _). done.
Qed.

(** X14.  On every state reached from a fresh [ConsensusState()] by
    reads, claims and calls of [parse_from_bytes] that return,
    [validator_did_claim_block] returns, for any validator info and any
    wait certificate: the additions on the stored counts never raise. *)
Theorem reachable_claim_returns self validator_info wait_certificate :
  reachable self →
  (validator_did_claim_block validator_info wait_certificate self).2 = Returns tt.
Proof.
  intros Hints%reachable_counts_are_ints.
  by destruct (validator_did_claim_block_counts self validator_info
                 wait_certificate Hints) as (self' & -> & _).
Qed.

End MoreParsing.

(** ** States the update rule makes *)

Lemma float_ge0_not_below x :
  SFleb PyFloat.zero x = true → PyFloat.ltb x PyFloat.zero = false.
Proof. by destruct x as [|[]| |[]]. Qed.

Lemma after_call_ok self c :
  call_ok c →
  (∀ k vs, _validators self !! k = Some vs → record_invariant vs) →
  0 ≤ total_block_claim_count self →
  float_ge0 (aggregate_local_mean self) = true →
  (∀ k vs, _validators (after_call self c) !! k = Some vs → record_invariant vs)
  ∧ 0 ≤ total_block_claim_count (after_call self c)
  ∧ float_ge0 (aggregate_local_mean (after_call self c)) = true.
Proof.
  intros Hc Hrecs Htot Halm. destruct c as [vi|vi wc]; cbn [after_call call_ok] in *.
  - rewrite get_validator_state_unfold.
    destruct (_validators self !! ValidatorInfo.id vi); cbn [fst]; [done|].
    split; [|done]. apply with_validator_ok; [done|]. by apply default_state_ok.
  - destruct Hc as [Hinfo Hmean].
    rewrite validator_did_claim_block_unfold. cbv zeta.
    rewrite get_validator_state_unfold.
    cbn [_validators aggregate_local_mean total_block_claim_count].
    destruct (bumped_ok vi (default (default_state vi)
                              (_validators self !! ValidatorInfo.id vi)) Hinfo)
      as (new & -> & Hnew).
    { destruct (_validators self !! ValidatorInfo.id vi) eqn:Hvi; simpl.
      - by eapply Hrecs.
      - by apply default_state_ok. }
    destruct (_validators self !! ValidatorInfo.id vi) eqn:Hvi; cbn [fst].
    + split; [by apply with_validator_ok|]. simpl.
      split; [lia|by apply add_ge0].
    + split.
      * apply with_validator_ok; [|done].
        apply (with_validator_ok _ _ (ConsensusState _ _ _)); [done|].
        by apply default_state_ok.
      * simpl. split; [lia|by apply add_ge0].
Qed.

(** X15.  A state made from a fresh [ConsensusState()] by reads and claims
    with the inputs the collaborators promise (signup keys that are not
    empty, local means that are [>= 0]) is one that [parse_from_bytes]
    accepts (every record keeps the invariant, the total is not negative,
    the aggregate is not below zero), as long as the sum of the local
    means has stayed finite. *)
Theorem after_calls_state_ok (calls : list call) :
  Forall call_ok calls →
  PyFloat.isfinite (aggregate_local_mean (foldl after_call __init__ calls)) = true →
  state_ok (foldl after_call __init__ calls).
Proof.
  intros Hcalls Hfin.
  assert (Hinv :
    (∀ k vs, _validators (foldl after_call __init__ calls) !! k = Some vs →
             record_invariant vs)
    ∧ 0 ≤ total_block_claim_count (foldl after_call __init__ calls)
    ∧ float_ge0 (aggregate_local_mean (foldl after_call __init__ calls)) = true).
  { clear Hfin.
    induction calls as [|c calls IH] using rev_ind.
    - split; [|done]. intros k vs. simpl. by rewrite lookup_empty.
    - apply Forall_app in Hcalls as [Hcalls Hc].
      pose proof (Forall_inv Hc) as Hc1.
      destruct (IH Hcalls) as (? & ? & ?).
      rewrite foldl_snoc. by apply after_call_ok. }
  destruct Hinv as (Hrecs & Htot & Halm).
  split; [done|]. split; [by apply float_ge0_not_below|]. split; [done|].
  intros k vs Hk. by apply record_ok_invariant, (Hrecs k).
Qed.

(** Two claims with the largest float as their local mean: the aggregate
    is an infinity, which [parse_from_bytes] refuses. *)
Example aggregate_overflows :
  aggregate_local_mean
    (claim_all [(info "alice" "A", certificate max_float);
                (info "alice" "A", certificate max_float)] __init__).1
  = PyFloat.inf.
Proof. by vm_compute. Qed.

(** ** The further properties on the sample data *)

Lemma parse_from_bytes_exceptions_witness :
  ValueError = ValueError ∨ ValueError = OverflowError
  ∨ (ValueError = OtherError
     ∧ Cbor.loads key_above_total = Raises OtherError
     ∧ after_key_above_total = one_validator).
Proof.
  apply (parse_from_bytes_exceptions (H:=Cbor.runtime) key_above_total
           one_validator after_key_above_total ValueError).
  vm_compute. reflexivity.
Defined.

Lemma parse_from_bytes_overflow_iff_witness :
  (parse_from_bytes (H:=Cbor.runtime) infinite_total one_validator).2
    = Raises OverflowError
  ↔ ∃ d, VDict (entries (VFloat minus_one) (VFloat PyFloat.inf) []) = VDict d
         ∧ ((∃ z, dict_getitem d "aggregate_local_mean" = Returns (VInt z)
                  ∧ PyFloat.of_int z = None)
            ∨ (∃ x alm s,
                 dict_getitem d "aggregate_local_mean" = Returns x
                 ∧ py_float (H:=Cbor.runtime) x = Returns alm
                 ∧ dict_getitem d "total_block_claim_count"
                   = Returns (VFloat (S754_infinity s)))).
Proof.
  apply (parse_from_bytes_overflow_iff (H:=Cbor.runtime) infinite_total
           one_validator
           (VDict (entries (VFloat minus_one) (VFloat PyFloat.inf) []))).
  vm_compute. reflexivity.
Defined.

Lemma parse_from_bytes_no_aggregate_witness :
  parse_from_bytes (H:=Cbor.runtime) not_a_dict one_validator
    = (one_validator, Raises ValueError).
Proof.
  apply (parse_from_bytes_no_aggregate (H:=Cbor.runtime) not_a_dict
           one_validator (VInt 5)).
  - vm_compute. reflexivity.
  - left. reflexivity.
Defined.

Lemma parse_from_bytes_last_item_wins_witness :
  ∃ vs,
    ValidatorState._make (VList [VInt 2; VStr "D"; VInt 3]) = Returns vs
    ∧ _validators (ConsensusState f2 7 (<["1" := record 2 "D" 3]> ∅))
        !! py_str (H:=Cbor.runtime) (VStr "1") = Some vs.
Proof.
  apply (parse_from_bytes_last_item_wins (H:=Cbor.runtime) colliding_keys
           one_validator
           (ConsensusState f2 7 (<["1" := record 2 "D" 3]> ∅))
           (entries (VFloat f2) (VInt 7)
              [(VInt 1, VList [VInt 1; VStr "C"; VInt 1]);
               (VStr "1", VList [VInt 2; VStr "D"; VInt 3])])
           [(VInt 1, VList [VInt 1; VStr "C"; VInt 1])]
           (VStr "1") (VList [VInt 2; VStr "D"; VInt 3]) []).
  - vm_compute. reflexivity.
  - vm_compute. reflexivity.
  - reflexivity.
  - intros item Hin. inversion Hin.
Defined.

Lemma parse_from_bytes_bad_record_witness :
  (parse_from_bytes (H:=Cbor.runtime) text_record one_validator).2
    = Raises ValueError.
Proof.
  apply (parse_from_bytes_bad_record (H:=Cbor.runtime) text_record one_validator
           (entries (VFloat f2) (VInt 7)
              [(VStr "carol", VList [VInt 1; VStr "C"; VInt 1]);
               (VStr "dave", VStr "abc")])
           (VFloat f2) f2 (VInt 7) 7
           [(VStr "carol", VList [VInt 1; VStr "C"; VInt 1]);
            (VStr "dave", VStr "abc")]
           (VStr "dave") (VStr "abc"));
    try (vm_compute; reflexivity).
  - lia.
  - apply elem_of_cons. right. apply elem_of_cons. left. reflexivity.
  - right. left. exists "abc". reflexivity.
Defined.

Lemma one_validator_records :
  ∀ k vs, _validators one_validator !! k = Some vs → record_invariant vs.
Proof.
  intros k vs Hk.
  apply (map_Forall_lookup_1 (λ _ vs, record_invariant vs)
           (_validators one_validator) k vs); [|exact Hk].
  apply map_Forall_insert_2; [|apply map_Forall_empty].
  unfold record_invariant. simpl.
  repeat split; try reflexivity; try lia. exists "A". split; [reflexivity|discriminate].
Defined.

Lemma parse_from_bytes_records_stay_valid_witness :
  record_invariant (record 1 "C" 1).
Proof.
  apply (parse_from_bytes_records_stay_valid (H:=Cbor.runtime) key_above_total
           one_validator "carol" (record 1 "C" 1)).
  - exact one_validator_records.
  - vm_compute. reflexivity.
Defined.

Lemma reachable_claim_returns_witness :
  (validator_did_claim_block (info "alice" "") (certificate f2)
     (get_validator_state (info "alice" "A") __init__).1).2 = Returns tt.
Proof.
  apply (reachable_claim_returns (H:=Cbor.runtime)
           (get_validator_state (info "alice" "A") __init__).1
           (info "alice" "") (certificate f2)).
  apply reachable_get; [apply reachable_init|]. unfold info_ok. simpl.
  discriminate.
Defined.

Lemma after_calls_state_ok_witness :
  state_ok
    (foldl after_call __init__
       [GetValidatorState (info "bob" "B");
        ValidatorDidClaimBlock (info "alice" "A") (certificate f3_7);
        ValidatorDidClaimBlock (info "alice" "A2") (certificate f2)]).
Proof.
  apply (after_calls_state_ok
           [GetValidatorState (info "bob" "B");
            ValidatorDidClaimBlock (info "alice" "A") (certificate f3_7);
            ValidatorDidClaimBlock (info "alice" "A2") (certificate f2)]).
  - repeat constructor; unfold info_ok; simpl; discriminate.
  - vm_compute. reflexivity.
Defined.
